(** * The interaction-logging service of app.py

    A shallow embedding of the Flask application in [app.py]: the module
    start-up code (lines 20-59), the handler [log_interaction] of
    [POST /log_interaction] (lines 63-116) and the handler [health_check]
    of [GET /health] (lines 119-124).

    Python values are an inductive type with Python's truth test; the
    handler is written in a state-and-exception monad whose state holds
    the [interactions] table, the SQLAlchemy sessions created so far and
    what was printed.  What the handler reads from outside (environment,
    clock, UUID source, database faults) is a record [World]. *)

From Stdlib Require Import ZArith String SpecFloat.
From stdpp Require Import gmap strings list fin_maps.

#[local] Set Warnings "-register-all".
#[local] Open Scope string_scope.
#[local] Open Scope list_scope.

(** ** Python values and exceptions *)

Module Py.

(** What [json.loads] can build: [None], [bool], [int], [float], [str],
    [list] and [dict] with string keys. *)
Inductive value : Type :=
| None_
| Bool (b : bool)
| Int (z : Z)
| Float (f : spec_float)
| Str (s : string)
| List (l : list value)
| Dict (d : gmap string value).

(** [bool(v)], the test behind [not v] and [if v]. *)
Definition truthy (v : value) : bool :=
  match v with
  | None_ => false
  | Bool b => b
  | Int z => negb (z =? 0)%Z
  | Float (S754_zero _) => false
  | Float _ => true
  | Str s => negb (s =? "")%string
  | List l => negb (length l =? 0)%nat
  | Dict d => negb (size d =? 0)%nat
  end.

(** [type(v).__name__] *)
Definition type_name (v : value) : string :=
  match v with
  | None_ => "NoneType"
  | Bool _ => "bool"
  | Int _ => "int"
  | Float _ => "float"
  | Str _ => "str"
  | List _ => "list"
  | Dict _ => "dict"
  end.

(** werkzeug's HTTP errors that [request.get_json()] can abort with. *)
Inductive http_error : Type := BadRequest | UnsupportedMediaType.

Definition code (h : http_error) : Z :=
  match h with BadRequest => 400 | UnsupportedMediaType => 415 end.

(** The exception classes the program can meet; all derive from
    [Exception], so [except Exception] catches each of them. *)
Inductive exn : Type :=
| AttributeError (msg : string)
| TypeError (msg : string)
| HTTPException (h : http_error)   (* werkzeug.exceptions *)
| ArgumentError (msg : string)     (* sqlalchemy.exc *)
| OperationalError (msg : string)
| IntegrityError (msg : string).

(** [str(e)]; for an HTTP error, werkzeug's status line. *)
Definition str (e : exn) : string :=
  match e with
  | AttributeError m | TypeError m | ArgumentError m
  | OperationalError m | IntegrityError m => m
  | HTTPException BadRequest => "400 Bad Request"
  | HTTPException UnsupportedMediaType => "415 Unsupported Media Type"
  end.

(** A value from the environment or a header: [str] or [None]. *)
Definition of_option (o : option string) : value :=
  match o with Some s => Str s | None => None_ end.

(** [data.get(key)]: dictionary lookup with default [None]; any other
    truthy JSON value has no attribute [get]. *)
Definition get (data : value) (key : string) : exn + value :=
  match data with
  | Dict d => inr (default None_ (d !! key))
  | v => inl (AttributeError
                ("'" +:+ type_name v +:+ "' object has no attribute 'get'"))
  end.

(** [v[:50]].  Strings and lists are sliced; numbers and booleans are not
    subscriptable; a dictionary takes the slice for a key (unhashable up
    to CPython 3.11). *)
Definition slice50 (v : value) : exn + value :=
  match v with
  | Str s => inr (Str (substring 0 50 s))
  | List l => inr (List (take 50 l))
  | Dict _ => inl (TypeError "unhashable type: 'slice'")
  | v => inl (TypeError
                ("'" +:+ type_name v +:+ "' object is not subscriptable"))
  end.

End Py.

(** ** The table and the ORM class *)

(** A naive UTC [datetime], as microseconds since the epoch. *)
Definition datetime : Type := Z.

(** An instance of the mapped class [Interaction] before it is flushed:
    [id] and [timestamp] have column defaults and may be unset. *)
Record Interaction : Type := mkInteraction {
  i_id : option string;
  i_user_id : Py.value;
  i_user_message : Py.value;
  i_gpt_response : Py.value;
  i_conversation_id : Py.value;
  i_timestamp : option datetime
}.

(** A row of the table [interactions]. *)
Record Row : Type := mkRow {
  id : string;
  user_id : Py.value;
  user_message : Py.value;
  gpt_response : Py.value;
  conversation_id : Py.value;
  timestamp : datetime
}.

Definition ids (t : list Row) : list string := id <$> t.

(** ** The outside world of one request *)

Record World : Type := mkWorld {
  API_KEY : option string;     (* os.getenv('API_KEY') *)
  utcnow : datetime;           (* datetime.utcnow() *)
  uuid4 : string;              (* str(uuid.uuid4()) *)
  db_fault : option string;    (* Some m: the database cannot run the
                                  statement, the driver reports m *)
  constraint_msg : string      (* the driver's text when a constraint of
                                  the table rejects the INSERT *)
}.

(** ** Program state and the monad *)

(** A SQLAlchemy session: the objects added and not yet flushed, and
    whether [close()] was called. *)
Record Sess : Type := mkSess {
  pending : list Interaction;
  closed : bool
}.

(** One constructor per [print] of app.py: a value of this type is one
    call of [print], whatever number of lines its text has. *)
Inductive log_line : Type :=
| WarnDatabaseUrlUnset                      (* line 25 *)
| TableChecked                              (* line 56 *)
| ErrCreateTable (e : Py.exn)               (* line 58 *)
| ErrApiKeyUnset                            (* line 72 *)
| AuthFailed (incoming expected : Py.value) (* line 77 *)
| ErrNoJson                                 (* line 83 *)
| ErrRequiredFields                         (* line 93 *)
| LoggedOk (user gpt : Py.value)            (* line 108 *)
| ErrLogFailed (e : Py.exn).                (* line 113 *)

Record State : Type := mkState {
  table : list Row;
  sessions : list Sess;
  stdout : list log_line
}.

Definition set_table (t : list Row) (s : State) : State :=
  mkState t (sessions s) (stdout s).
Definition set_sessions (l : list Sess) (s : State) : State :=
  mkState (table s) l (stdout s).

Inductive result (A : Type) : Type :=
| Return (a : A)
| Raise (e : Py.exn).
Arguments Return {A} a.
Arguments Raise {A} e.

Definition M (A : Type) : Type := State -> result A * State.

Definition ret {A} (a : A) : M A := fun s => (Return a, s).
Definition raise {A} (e : Py.exn) : M A := fun s => (Raise e, s).
Definition bind {A B} (m : M A) (k : A -> M B) : M B :=
  fun s => match m s with
           | (Return a, s') => k a s'
           | (Raise e, s') => (Raise e, s')
           end.
Definition lift {A} (x : Py.exn + A) : M A :=
  match x with inl e => raise e | inr a => ret a end.

Notation "'let*' x ':=' m 'in' k" := (bind m (fun x => k))
  (at level 10, x name, m at level 100, k at level 200).
Notation "'do' m 'in' k" := (bind m (fun _ => k))
  (at level 10, m at level 100, k at level 200).

Definition print (l : log_line) : M unit :=
  fun s => (Return tt, mkState (table s) (sessions s) (stdout s ++ [l])).

(** ** The SQLAlchemy session *)

(** The INSERT of one object into [interactions].  The column defaults
    fill an unset [id] (a fresh UUID) and an unset [timestamp]; the
    statement fails when the database cannot run it, when one of the
    [nullable=False] columns is NULL, or when the primary key [id] is
    already in the table. *)
Definition insert (w : World) (t : list Row) (o : Interaction)
    : result (list Row) :=
  let r := mkRow (default (uuid4 w) (i_id o)) (i_user_id o)
                 (i_user_message o) (i_gpt_response o)
                 (i_conversation_id o)
                 (default (utcnow w) (i_timestamp o)) in
  match db_fault w with
  | Some m => Raise (Py.OperationalError m)
  | None =>
      match i_user_message o, i_gpt_response o with
      | Py.None_, _ | _, Py.None_ =>
          Raise (Py.IntegrityError (constraint_msg w))
      | _, _ =>
          if bool_decide (id r ∈ ids t)
          then Raise (Py.IntegrityError (constraint_msg w))
          else Return (t ++ [r])
      end
  end.

(** The flush of a commit: every pending object is inserted, in one
    transaction: a failure leaves the table as it was. *)
Fixpoint flush (w : World) (t : list Row) (os : list Interaction)
    : result (list Row) :=
  match os with
  | [] => Return t
  | o :: os' =>
      match insert w t o with
      | Return t' => flush w t' os'
      | Raise e => Raise e
      end
  end.

(** [Session()]: a new session; its handle is its position in the
    state. *)
Definition Session : M nat :=
  fun s => (Return (length (sessions s)),
            set_sessions (sessions s ++ [mkSess [] false]) s).

(** [session.add(o)]: o becomes pending; nothing is sent yet. *)
Definition session_add (h : nat) (o : Interaction) : M unit :=
  fun s => (Return tt,
            set_sessions
              (alter (fun x => mkSess (pending x ++ [o]) (closed x)) h
                     (sessions s)) s).

(** [session.commit()]: flush the pending objects and commit.  When the
    flush raises, the database has undone the transaction and the objects
    stay pending until [rollback()]. *)
Definition session_commit (w : World) (h : nat) : M unit :=
  fun s =>
    match flush w (table s) (default [] (pending <$> sessions s !! h)) with
    | Return t' =>
        (Return tt,
         set_table t'
           (set_sessions
              (alter (fun x => mkSess [] (closed x)) h (sessions s)) s))
    | Raise e => (Raise e, s)
    end.

(** [session.rollback()]: the pending objects are dropped; what was
    committed stays.  Like [close()], it is taken not to raise. *)
Definition session_rollback (h : nat) : M unit :=
  fun s => (Return tt,
            set_sessions
              (alter (fun x => mkSess [] (closed x)) h (sessions s)) s).

(** [session.close()] *)
Definition session_close (h : nat) : M unit :=
  fun s => (Return tt,
            set_sessions (alter (fun _ => mkSess [] true) h (sessions s)) s).

(** ** Flask: requests, [get_json], [jsonify], replies *)

(** The body of a request as [request.get_json()] sees it. *)
Inductive payload : Type :=
| NotJsonMimetype            (* Content-Type is not application/json *)
| Malformed                  (* JSON mimetype, the bytes do not parse *)
| Parsed (v : Py.value).     (* JSON mimetype, [json.loads] gives v *)

Record Request : Type := mkRequest {
  headers : gmap string string;
  body : payload
}.

(** What [get_json()] does with a body whose mimetype is not JSON changed
    between releases of Flask: [None] before 2.1, 400 from 2.1, 415 from
    2.3.  app.py pins no release. *)
Inductive flask_release : Type := Before_2_1 | From_2_1 | From_2_3.

(** [request.get_json()] with its default arguments, on the three kinds
    of body above.  What else [json.loads] may raise on a body (a
    [RecursionError] on very deep nesting, say) is not among them. *)
Definition get_json (fl : flask_release) (req : Request) : M Py.value :=
  match body req with
  | Parsed v => ret v
  | Malformed => raise (Py.HTTPException Py.BadRequest)
  | NotJsonMimetype =>
      match fl with
      | Before_2_1 => ret Py.None_
      | From_2_1 => raise (Py.HTTPException Py.BadRequest)
      | From_2_3 => raise (Py.HTTPException Py.UnsupportedMediaType)
      end
  end.

(** A view returns [(jsonify(obj), status)]. *)
Definition Response : Type := (Py.value * Z)%type.

Definition jsonify (d : gmap string Py.value) : Py.value := Py.Dict d.

(** What the client receives.  app.py registers no error handler: Flask
    answers an [HTTPException] with that error's status and an HTML page,
    and any other exception that leaves a view with status 500. *)
Inductive content : Type := JsonBody (v : Py.value) | HtmlBody.

Definition reply (r : result Response) : Z * content :=
  match r with
  | Return (b, st) => (st, JsonBody b)
  | Raise (Py.HTTPException h) => (Py.code h, HtmlBody)
  | Raise _ => (500%Z, HtmlBody)
  end.

(** ** [try] statements *)

Definition try_except {A} (body : M A) (handler : Py.exn -> M A) : M A :=
  fun s => match body s with
           | (Return a, s') => (Return a, s')
           | (Raise e, s') => handler e s'
           end.

(** The [finally] block runs on every way out; if it raises, its
    exception replaces the outcome. *)
Definition try_finally {A} (body : M A) (final : M unit) : M A :=
  fun s => let '(r, s1) := body s in
           match final s1 with
           | (Return _, s2) => (r, s2)
           | (Raise e, s2) => (Raise e, s2)
           end.

(** ** The views of app.py *)

(** Step 4 of [log_interaction], "Save to Database", lines 97-116. *)
Definition save_to_database (w : World)
    (user_id user_message gpt_response conversation_id : Py.value)
    : M Response :=
  let* session := Session in
  try_finally
    (try_except
       (let new_interaction :=
          mkInteraction None user_id user_message gpt_response
                        conversation_id (Some (utcnow w)) in
        do session_add session new_interaction in
        do session_commit w session in
        let* user50 := lift (Py.slice50 user_message) in
        let* gpt50 := lift (Py.slice50 gpt_response) in
        do print (LoggedOk user50 gpt50) in
        ret (jsonify {[ "status" := Py.Str "success";
                        "message" :=
                          Py.Str "Interaction logged successfully" ]},
             200%Z))
       (fun e =>
        do session_rollback session in
        do print (ErrLogFailed e) in
        ret (jsonify {[ "error" :=
                          Py.Str ("Failed to log interaction: "
                                  +:+ Py.str e) ]},
             500%Z)))
    (session_close session).

(** [log_interaction], lines 64-116. *)
Definition log_interaction (fl : flask_release) (w : World) (req : Request)
    : M Response :=
  (* 1. Authentication Check *)
  let expected_api_key := API_KEY w in
  if negb (Py.truthy (Py.of_option expected_api_key)) then
    do print ErrApiKeyUnset in
    ret (jsonify {[ "error" :=
                      Py.Str "Server configuration error: API key not set" ]},
         500%Z)
  else
  let incoming_api_key := headers req !! "X-API-KEY" in
  if negb (Py.truthy (Py.of_option incoming_api_key))
     || negb (bool_decide (incoming_api_key = expected_api_key)) then
    do print (AuthFailed (Py.of_option incoming_api_key)
                         (Py.of_option expected_api_key)) in
    ret (jsonify {[ "error" := Py.Str "Unauthorized: Invalid API Key" ]},
         401%Z)
  else
  (* 2. Parse Incoming JSON Data *)
  let* data := get_json fl req in
  if negb (Py.truthy data) then
    do print ErrNoJson in
    ret (jsonify {[ "error" := Py.Str "No JSON data provided" ]}, 400%Z)
  else
  let* user_message := lift (Py.get data "userMessage") in
  let* gpt_response := lift (Py.get data "gptResponse") in
  let* user_id := lift (Py.get data "userId") in
  let* conversation_id := lift (Py.get data "conversationId") in
  (* 3. Validate Required Fields *)
  if negb (Py.truthy user_message) || negb (Py.truthy gpt_response) then
    do print ErrRequiredFields in
    ret (jsonify {[ "error" :=
                      Py.Str "'userMessage' and 'gptResponse' are required" ]},
         400%Z)
  else
  (* 4. Save to Database *)
  save_to_database w user_id user_message gpt_response conversation_id.

(** [health_check], lines 119-124. *)
Definition health_check : M Response :=
  ret (jsonify {[ "status" := Py.Str "healthy";
                  "message" := Py.Str "API is running" ]},
       200%Z).

(** ** The two routes, and runs of the service *)

(** A call of one of the routes registered with [@app.route], with the
    world it runs in. *)
Inductive call : Type :=
| POST_log_interaction (w : World) (req : Request)
| GET_health (w : World) (req : Request).

Definition serve (fl : flask_release) (c : call) : M Response :=
  match c with
  | POST_log_interaction w req => log_interaction fl w req
  | GET_health _ _ => health_check
  end.

(** The state after a sequence of calls, one after the other. *)
Definition run (fl : flask_release) (cs : list call) (s : State) : State :=
  foldl (fun s c => snd (serve fl c s)) s cs.

(** ** Module start-up, lines 20-59 *)

Section Startup.

(** SQLAlchemy's engine, [create_engine] and
    [Base.metadata.create_all] are not part of this repository. *)
Context {Engine : Type}.
Variable create_engine : option string -> result Engine.
Variable create_all : Engine -> result unit.

Definition of_result {A} (r : result A) : M A :=
  match r with Return a => ret a | Raise e => raise e end.

(** Importing app.py with [os.getenv("DATABASE_URL")] as given.
    [Return engine]: the module is loaded and the application can
    serve; [Raise e]: the import stops with the uncaught exception e. *)
Definition startup (DATABASE_URL : option string) : M Engine :=
  do (if negb (Py.truthy (Py.of_option DATABASE_URL))
      then print WarnDatabaseUrlUnset
      else ret tt) in
  let* engine := of_result (create_engine DATABASE_URL) in
  do try_except
       (do of_result (create_all engine) in
        print TableChecked)
       (fun e => print (ErrCreateTable e)) in
  ret engine.

End Startup.

(** ** Sample data *)

Definition s0 : State := mkState [] [] [].

Definition hdr (k : string) : gmap string string := {[ "X-API-KEY" := k ]}.

Definition w_ok : World :=
  mkWorld (Some "abc123") 1700000000000000%Z
          "3f2b8c1e-0d4a-4c57-9a51-6f0e2d7b9c10" None
          "duplicate key value violates unique constraint".

Definition w_down : World :=
  mkWorld (Some "abc123") 1700000000000000%Z
          "3f2b8c1e-0d4a-4c57-9a51-6f0e2d7b9c10"
          (Some "could not connect to server")
          "duplicate key value violates unique constraint".

Definition hi_hello : gmap string Py.value :=
  {[ "userMessage" := Py.Str "hi"; "gptResponse" := Py.Str "hello" ]}.

Definition req_ok : Request :=
  mkRequest (hdr "abc123") (Parsed (Py.Dict hi_hello)).

(** ** Vocabulary of the statements *)

(** The body of the [try] statement after the commit: the two slices of
    line 108, then the 200 reply. *)
Definition after_commit (user_message gpt_response : Py.value)
    : Py.exn + log_line :=
  match Py.slice50 user_message with
  | inl e => inl e
  | inr u => match Py.slice50 gpt_response with
             | inl e => inl e
             | inr g => inr (LoggedOk u g)
             end
  end.

Definition ok_body : Py.value :=
  jsonify {[ "status" := Py.Str "success";
             "message" := Py.Str "Interaction logged successfully" ]}.

Definition failed_body (e : Py.exn) : Py.value :=
  jsonify {[ "error" := Py.Str ("Failed to log interaction: " +:+ Py.str e) ]}.

(** The secret is configured: [API_KEY] is set and not empty. *)
Definition configured (w : World) (k : string) : Prop :=
  API_KEY w = Some k ∧ k ≠ "".

(** The request carries the configured secret in [X-API-KEY]. *)
Definition authorized (w : World) (req : Request) (k : string) : Prop :=
  configured w k ∧ headers req !! "X-API-KEY" = Some k.

Definition printed (l : log_line) (s : State) : State :=
  mkState (table s) (sessions s) (stdout s ++ [l]).

Definition error_body (msg : string) : Py.value :=
  jsonify {[ "error" := Py.Str msg ]}.

(** A key of the request body is missing or holds the empty string. *)
Definition missing_or_empty (d : gmap string Py.value) (key : string) : Prop :=
  d !! key = None ∨ d !! key = Some (Py.Str "").

(** The view returned a JSON body with status [st]. *)
Definition returns_json (st : Z) (out : result Response * State) : Prop :=
  ∃ b, fst out = Return (b, st).

Definition req_malformed : Request := mkRequest (hdr "abc123") Malformed.

Definition req_array : Request :=
  mkRequest (hdr "abc123") (Parsed (Py.List [Py.Int 1])).

(** A row was written by one of the calls: its id and its timestamp are
    the UUID and the clock of that call's world. *)
Definition written_by (cs : list call) (r : Row) : Prop :=
  ∃ w req, POST_log_interaction w req ∈ cs
           ∧ id r = uuid4 w ∧ timestamp r = utcnow w.

Definition nonempty (v : Py.value) : Prop :=
  Py.truthy v = true ∧ v ≠ Py.None_ ∧ v ≠ Py.Str "".

(** The keys that lines 86-89 read. *)
Definition read_keys : list string :=
  ["userMessage"; "gptResponse"; "userId"; "conversationId"].

(** SQLAlchemy's [create_engine] on the URL it is given: it refuses
    [None] with an [ArgumentError] and otherwise builds an engine (here:
    the URL) without connecting. *)
Definition sqlalchemy_create_engine (url : option string) : result string :=
  match url with
  | None => Raise (Py.ArgumentError "Expected string or URL object, got None")
  | Some u => Return u
  end.

(** A database that cannot be reached when the table is created. *)
Definition create_all_unreachable (engine : string) : result unit :=
  Raise (Py.OperationalError "could not connect to server").

(** The values Python takes for false: [None], [False], [0], [0.0] and
    [-0.0], the empty string, list and dictionary. *)
Definition falsy_shape (v : Py.value) : Prop :=
  v = Py.None_ ∨ v = Py.Bool false ∨ v = Py.Int 0
  ∨ (∃ sign, v = Py.Float (S754_zero sign))
  ∨ v = Py.Str "" ∨ v = Py.List [] ∨ v = Py.Dict ∅.

(** The row that step 4 hands to the database for the object d. *)
Definition row_of (w : World) (d : gmap string Py.value) : Row :=
  mkRow (uuid4 w) (default Py.None_ (d !! "userId"))
        (default Py.None_ (d !! "userMessage"))
        (default Py.None_ (d !! "gptResponse"))
        (default Py.None_ (d !! "conversationId")) (utcnow w).

Definition is_post (c : call) : bool :=
  match c with POST_log_interaction _ _ => true | GET_health _ _ => false end.

Definition is_200 (r : result Response) : bool :=
  match r with Return (_, st) => (st =? 200)%Z | Raise _ => false end.

(** How many of the calls to [POST /log_interaction] in a run are
    answered 200. *)
Fixpoint accepted (fl : flask_release) (cs : list call) (s : State) : nat :=
  match cs with
  | [] => 0
  | c :: cs' =>
      (if is_post c && is_200 (fst (serve fl c s)) then 1 else 0)
      + accepted fl cs' (snd (serve fl c s))
  end.

(** A session that was closed and holds nothing. *)
Definition released (x : Sess) : Prop := closed x = true ∧ pending x = [].

Definition five_hello : gmap string Py.value :=
  {[ "userMessage" := Py.Int 5; "gptResponse" := Py.Str "hello" ]}.


(** The process from its start: app.py is imported, which runs lines
    20-59 and only then registers the routes of lines 63 and 119; then a
    call is served.  When the import raises there is no application, and
    the call gets no reply from it. *)
Definition import_then_serve {Engine : Type}
    (create_engine : option string -> result Engine)
    (create_all : Engine -> result unit)
    (DATABASE_URL : option string) (fl : flask_release) (c : call)
    : M Response :=
  do startup create_engine create_all DATABASE_URL in
  serve fl c.

(** * Properties *)

(** ** The monad *)

Lemma bind_ret {A B} (a : A) (k : A -> M B) s : bind (ret a) k s = k a s.
Proof. reflexivity. Qed.

Lemma bind_raise {A B} e (k : A -> M B) s :
  bind (raise e) k s = (Raise e, s).
Proof. reflexivity. Qed.

(** ** Truth tests *)

Lemma truthy_env_Some (k : string) :
  Py.truthy (Py.of_option (Some k)) = true <-> (k ≠ "").
Proof.
  cbn [Py.of_option Py.truthy]. rewrite negb_true_iff. apply String.eqb_neq.
Qed.

Lemma truthy_Dict (d : gmap string Py.value) :
  Py.truthy (Py.Dict d) = true <-> (d ≠ ∅).
Proof.
  cbn [Py.truthy]. rewrite negb_true_iff, Nat.eqb_neq.
  apply map_size_non_empty_iff.
Qed.

Lemma truthy_Dict_lookup (d : gmap string Py.value) k v :
  d !! k = Some v -> Py.truthy (Py.Dict d) = true.
Proof.
  intros H. apply truthy_Dict. intros ->. by rewrite lookup_empty in H.
Qed.

Lemma truthy_not_None v : Py.truthy v = true -> v ≠ Py.None_.
Proof. by intros H ->. Qed.

Lemma truthy_not_empty_Str v : Py.truthy v = true -> v ≠ Py.Str "".
Proof. by intros H ->. Qed.

(** ** The session that [save_to_database] opens *)

Lemma lookup_last {A} (l : list A) x : (l ++ [x]) !! length l = Some x.
Proof. by rewrite list_lookup_middle. Qed.

Lemma alter_last {A} (f : A -> A) (l : list A) x :
  alter f (length l) (l ++ [x]) = l ++ [f x].
Proof.
  replace (length l) with (length l + 0) by lia.
  by rewrite alter_app_r.
Qed.

(** What one INSERT does, case by case. *)
Lemma insert_Return w t o t' :
  insert w t o = Return t' ->
  db_fault w = None ∧
  (default (uuid4 w) (i_id o) ∉ ids t) ∧
  i_user_message o ≠ Py.None_ ∧ i_gpt_response o ≠ Py.None_ ∧
  t' = t ++ [mkRow (default (uuid4 w) (i_id o)) (i_user_id o)
                   (i_user_message o) (i_gpt_response o)
                   (i_conversation_id o)
                   (default (utcnow w) (i_timestamp o))].
Proof.
  unfold insert. destruct (db_fault w); [done|].
  cbn [id].
  destruct (i_user_message o) eqn:Eu; [done|..];
    (destruct (i_gpt_response o) eqn:Eg; [done|..]);
    case_bool_decide; try done;
    intros [= <-]; repeat split; done.
Qed.

Lemma insert_ok w t o :
  db_fault w = None ->
  Py.truthy (i_user_message o) = true ->
  Py.truthy (i_gpt_response o) = true ->
  default (uuid4 w) (i_id o) ∉ ids t ->
  insert w t o =
    Return (t ++ [mkRow (default (uuid4 w) (i_id o)) (i_user_id o)
                        (i_user_message o) (i_gpt_response o)
                        (i_conversation_id o)
                        (default (utcnow w) (i_timestamp o))]).
Proof.
  intros Hf Hu Hg Hid. unfold insert. rewrite Hf. cbn [id].
  rewrite bool_decide_eq_false_2 by done.
  destruct (i_user_message o); [done|..];
    (destruct (i_gpt_response o); [done|..]); reflexivity.
Qed.

(** [save_to_database] in closed form: one session is opened and closed
    whatever happens; the table changes exactly when the INSERT passes. *)
Lemma save_to_database_eq w uid um gr cid s :
  save_to_database w uid um gr cid s =
  let o := mkInteraction None uid um gr cid (Some (utcnow w)) in
  let done_ := sessions s ++ [mkSess [] true] in
  match insert w (table s) o with
  | Return t' =>
      match after_commit um gr with
      | inr l => (Return (ok_body, 200%Z), mkState t' done_ (stdout s ++ [l]))
      | inl e => (Return (failed_body e, 500%Z),
                  mkState t' done_ (stdout s ++ [ErrLogFailed e]))
      end
  | Raise e => (Return (failed_body e, 500%Z),
                mkState (table s) done_ (stdout s ++ [ErrLogFailed e]))
  end.
Proof.
  unfold save_to_database, bind, Session, try_finally, try_except,
    session_add, session_commit, session_rollback, session_close, print,
    ret, set_sessions, set_table, after_commit, ok_body, failed_body.
  cbn [sessions table stdout fst snd].
  rewrite !alter_last. cbn [pending closed].
  rewrite lookup_last.
  cbn [fmap option_fmap option_map from_option Datatypes.id pending app flush].
  destruct (insert w (table s) _) as [t'|e] eqn:Ei.
  - cbn [sessions table stdout]. rewrite ?alter_last.
    destruct (Py.slice50 um) as [e|u]; cbn [lift raise ret].
    + cbn [sessions table stdout]. by rewrite !alter_last.
    + destruct (Py.slice50 gr) as [e|g]; cbn [lift raise ret];
        cbn [sessions table stdout]; by rewrite !alter_last.
  - cbn [sessions table stdout]. by rewrite !alter_last.
Qed.

(** ** The guards of [log_interaction] *)

(** Past both checks of step 1, the view goes on with step 2. *)
Ltac pass_auth H :=
  let Hk := fresh "Hk" in
  let Hne := fresh "Hne" in
  let Hh := fresh "Hh" in
  destruct H as [[Hk Hne] Hh];
  unfold log_interaction;
  rewrite Hk, Hh, (proj2 (truthy_env_Some _) Hne),
    bool_decide_eq_true_2 by reflexivity;
  cbn [negb orb].

Lemma missing_or_empty_falsy d key :
  missing_or_empty d key -> Py.truthy (default Py.None_ (d !! key)) = false.
Proof. by intros [-> | ->]. Qed.

(** A falsy field stops the view at step 3, whatever else the object
    holds. *)
Lemma log_interaction_falsy_field fl w req s k d :
  authorized w req k ->
  body req = Parsed (Py.Dict d) ->
  d ≠ ∅ ->
  Py.truthy (default Py.None_ (d !! "userMessage")) = false
  ∨ Py.truthy (default Py.None_ (d !! "gptResponse")) = false ->
  log_interaction fl w req s =
    (Return (error_body "'userMessage' and 'gptResponse' are required", 400%Z),
     printed ErrRequiredFields s).
Proof.
  intros Ha Hb Hd Hf. pass_auth Ha.
  unfold get_json, bind at 1. rewrite Hb. cbn [ret].
  rewrite (proj2 (truthy_Dict d) Hd). cbn [negb Py.get lift].
  unfold bind, ret. 
  destruct Hf as [-> | ->]; cbn [negb orb]; [done|].
  by rewrite orb_true_r.
Qed.

(** A falsy body stops the view at step 2. *)
Lemma log_interaction_falsy_body fl w req s k v :
  authorized w req k ->
  body req = Parsed v ->
  Py.truthy v = false ->
  log_interaction fl w req s =
    (Return (error_body "No JSON data provided", 400%Z), printed ErrNoJson s).
Proof.
  intros Ha Hb Hv. pass_auth Ha.
  unfold get_json, bind at 1. rewrite Hb. cbn [ret].
  by rewrite Hv.
Qed.

(** With truthy fields the view reaches step 4. *)
Lemma log_interaction_save fl w req s k d :
  authorized w req k ->
  body req = Parsed (Py.Dict d) ->
  Py.truthy (default Py.None_ (d !! "userMessage")) = true ->
  Py.truthy (default Py.None_ (d !! "gptResponse")) = true ->
  log_interaction fl w req s =
    save_to_database w (default Py.None_ (d !! "userId"))
      (default Py.None_ (d !! "userMessage"))
      (default Py.None_ (d !! "gptResponse"))
      (default Py.None_ (d !! "conversationId")) s.
Proof.
  intros Ha Hb Hu Hg. pass_auth Ha.
  unfold get_json, bind at 1. rewrite Hb. cbn [ret].
  assert (Hd : Py.truthy (Py.Dict d) = true).
  { destruct (d !! "userMessage") as [v|] eqn:E; [|done].
    by eapply truthy_Dict_lookup. }
  rewrite Hd. cbn [negb Py.get lift].
  unfold bind at 1 2 3 4, ret. by rewrite Hu, Hg.
Qed.

(** A truthy body that is not an object has no [get]: line 86 raises. *)
Lemma log_interaction_not_object fl w req s k v :
  authorized w req k ->
  body req = Parsed v ->
  Py.truthy v = true ->
  (∀ d, v ≠ Py.Dict d) ->
  log_interaction fl w req s =
    (Raise (Py.AttributeError
              ("'" +:+ Py.type_name v +:+ "' object has no attribute 'get'")),
     s).
Proof.
  intros Ha Hb Hv Hd. pass_auth Ha.
  unfold get_json, bind at 1. rewrite Hb. cbn [ret]. rewrite Hv.
  cbn [negb]. destruct v; try done. by destruct (Hd d).
Qed.

(** A body that [get_json()] refuses: the view stops at line 81. *)
Lemma log_interaction_get_json_raises fl w req s k :
  authorized w req k ->
  body req = Malformed ∨ body req = NotJsonMimetype ∧ fl ≠ Before_2_1 ->
  ∃ h, log_interaction fl w req s = (Raise (Py.HTTPException h), s).
Proof.
  intros Ha Hb. pass_auth Ha. unfold get_json, bind at 1.
  destruct Hb as [-> | [-> Hfl]]; [by eexists|].
  destruct fl; try done; by eexists.
Qed.

(** Before Flask 2.1 a body without the JSON mimetype reads as [None]. *)
Lemma log_interaction_legacy_mimetype w req s k :
  authorized w req k ->
  body req = NotJsonMimetype ->
  log_interaction Before_2_1 w req s =
    (Return (error_body "No JSON data provided", 400%Z), printed ErrNoJson s).
Proof.
  intros Ha Hb. pass_auth Ha. unfold get_json, bind at 1. by rewrite Hb.
Qed.

(** Every run of the view either stops before step 4, with the table and
    the sessions untouched and a status other than 200, or is a run of
    step 4 on truthy fields of a JSON object sent with the right key. *)
Lemma log_interaction_cases fl w req s :
  (table (snd (log_interaction fl w req s)) = table s
   ∧ sessions (snd (log_interaction fl w req s)) = sessions s
   ∧ ∀ b, fst (log_interaction fl w req s) ≠ Return (b, 200%Z))
  ∨ (∃ k d, authorized w req k
      ∧ body req = Parsed (Py.Dict d)
      ∧ Py.truthy (default Py.None_ (d !! "userMessage")) = true
      ∧ Py.truthy (default Py.None_ (d !! "gptResponse")) = true).
Proof.
  destruct (API_KEY w) as [k|] eqn:Hk; cycle 1.
  { left. unfold log_interaction. rewrite Hk. by cbn. }
  destruct (decide (k = "")) as [->|Hne].
  { left. unfold log_interaction. rewrite Hk. by cbn. }
  destruct (decide (headers req !! "X-API-KEY" = Some k)) as [Hh|Hh]; cycle 1.
  { left. unfold log_interaction.
    rewrite Hk, (proj2 (truthy_env_Some _) Hne). cbn [negb].
    rewrite (bool_decide_eq_false_2 _ Hh), orb_true_r. by cbn. }
  assert (Ha : authorized w req k) by done.
  destruct (body req) as [| |v] eqn:Hb.
  - left. destruct fl.
    + by rewrite (log_interaction_legacy_mimetype _ _ _ _ Ha Hb).
    + destruct (log_interaction_get_json_raises From_2_1 w req s k Ha)
        as [h ->]; [by right|by cbn].
    + destruct (log_interaction_get_json_raises From_2_3 w req s k Ha)
        as [h ->]; [by right|by cbn].
  - left.
    destruct (log_interaction_get_json_raises fl w req s k Ha) as [h ->];
      [by left|by cbn].
  - destruct (Py.truthy v) eqn:Hv; cycle 1.
    { left. by rewrite (log_interaction_falsy_body _ _ _ _ _ _ Ha Hb Hv). }
    destruct v as [|b|z|f|x|l|d];
      try (left;
           rewrite (log_interaction_not_object _ _ _ _ _ _ Ha Hb Hv) by done;
           by cbn).
    destruct (Py.truthy (default Py.None_ (d !! "userMessage"))) eqn:Hu;
      cycle 1.
    { left. apply truthy_Dict in Hv.
      rewrite (log_interaction_falsy_field _ _ _ _ _ _ Ha Hb Hv) by auto.
      by cbn. }
    destruct (Py.truthy (default Py.None_ (d !! "gptResponse"))) eqn:Hg;
      cycle 1.
    { left. apply truthy_Dict in Hv.
      rewrite (log_interaction_falsy_field _ _ _ _ _ _ Ha Hb Hv) by auto.
      by cbn. }
    right. by exists k, d.
Qed.

(** What step 4 leaves behind: one more closed session, and either the
    old table or the old table with one new row. *)
Lemma save_to_database_state w uid um gr cid s :
  Py.truthy um = true -> Py.truthy gr = true ->
  let out := save_to_database w uid um gr cid s in
  sessions (snd out) = sessions s ++ [mkSess [] true]
  ∧ (table (snd out) = table s ∧ (∀ b, fst out ≠ Return (b, 200%Z))
     ∨ (uuid4 w ∉ ids (table s))
       ∧ table (snd out) =
           table s ++ [mkRow (uuid4 w) uid um gr cid (utcnow w)]).
Proof.
  intros Hu Hg out. subst out. rewrite save_to_database_eq. cbv zeta.
  destruct (insert _ _ _) as [t'|e] eqn:Ei.
  - apply insert_Return in Ei as (_ & Hid & _ & _ & ->).
    cbn in Hid. destruct (after_commit um gr); cbn; auto.
  - cbn. split; [done|]. left. split; [done|by intros b].
Qed.

(** ** Authentication *)

(** C7.  With no secret configured ([API_KEY] unset or empty) every call
    of the view answers 500 with the configuration error, whatever the
    header and the body are, and leaves the table as it was: the test of
    line 71 comes before the header is read. *)
Theorem log_interaction_secret_unset fl w req s :
  API_KEY w = None ∨ API_KEY w = Some "" ->
  log_interaction fl w req s =
    (Return (jsonify {[ "error" :=
                          Py.Str "Server configuration error: API key not set" ]},
             500%Z),
     printed ErrApiKeyUnset s)
  ∧ table (snd (log_interaction fl w req s)) = table s.
Proof.
  intros H. unfold log_interaction. by destruct H as [-> | ->].
Qed.

Lemma log_interaction_secret_unset_witness :
  log_interaction From_2_3
    (mkWorld None 0%Z "u" None "") (mkRequest ∅ Malformed) s0 =
    (Return (jsonify {[ "error" :=
                          Py.Str "Server configuration error: API key not set" ]},
             500%Z),
     printed ErrApiKeyUnset s0)
  ∧ table (snd (log_interaction From_2_3
                  (mkWorld None 0%Z "u" None "") (mkRequest ∅ Malformed) s0))
    = table s0.
Proof.
  apply (log_interaction_secret_unset From_2_3
           (mkWorld None 0%Z "u" None "") (mkRequest ∅ Malformed) s0).
  left. reflexivity.
Defined.

(** C3.  With the secret configured, a call whose [X-API-KEY] header is
    missing or differs from the secret answers 401 with
    [{"error": "Unauthorized: Invalid API Key"}] and leaves the table as
    it was. *)
Theorem log_interaction_unauthorized fl w req s k :
  configured w k ->
  headers req !! "X-API-KEY" ≠ Some k ->
  log_interaction fl w req s =
    (Return (jsonify {[ "error" := Py.Str "Unauthorized: Invalid API Key" ]},
             401%Z),
     printed (AuthFailed (Py.of_option (headers req !! "X-API-KEY"))
                         (Py.Str k)) s)
  ∧ table (snd (log_interaction fl w req s)) = table s.
Proof.
  intros [Hk Hne] Hh. unfold log_interaction.
  rewrite Hk, (proj2 (truthy_env_Some _) Hne). cbn [negb].
  by rewrite (bool_decide_eq_false_2 _ Hh), orb_true_r.
Qed.

Lemma log_interaction_unauthorized_witness :
  log_interaction From_2_3 w_ok (mkRequest (hdr "abc124") (body req_ok)) s0 =
    (Return (jsonify {[ "error" := Py.Str "Unauthorized: Invalid API Key" ]},
             401%Z),
     printed (AuthFailed (Py.Str "abc124") (Py.Str "abc123")) s0)
  ∧ table (snd (log_interaction From_2_3 w_ok
                  (mkRequest (hdr "abc124") (body req_ok)) s0)) = table s0.
Proof.
  apply (log_interaction_unauthorized From_2_3 w_ok
           (mkRequest (hdr "abc124") (body req_ok)) s0 "abc123").
  - split; [reflexivity|discriminate].
  - vm_compute. discriminate.
Defined.

(** ** The request body *)

(** C10.  With the right key, a body that parses to a falsy JSON value
    (the empty object, null, false, 0, the empty string or array)
    answers 400 with [{"error": "No JSON data provided"}] and leaves the
    table as it was: line 82 tests the truth of the parsed value. *)
Theorem log_interaction_falsy_json fl w req s k v :
  authorized w req k ->
  body req = Parsed v ->
  Py.truthy v = false ->
  log_interaction fl w req s =
    (Return (jsonify {[ "error" := Py.Str "No JSON data provided" ]}, 400%Z),
     printed ErrNoJson s)
  ∧ table (snd (log_interaction fl w req s)) = table s.
Proof.
  intros Ha Hb Hv.
  by rewrite (log_interaction_falsy_body _ _ _ _ _ _ Ha Hb Hv).
Qed.

Lemma log_interaction_falsy_json_witness :
  log_interaction From_2_3 w_ok
    (mkRequest (hdr "abc123") (Parsed (Py.Dict ∅))) s0 =
    (Return (jsonify {[ "error" := Py.Str "No JSON data provided" ]}, 400%Z),
     printed ErrNoJson s0)
  ∧ table (snd (log_interaction From_2_3 w_ok
                  (mkRequest (hdr "abc123") (Parsed (Py.Dict ∅))) s0))
    = table s0.
Proof.
  apply (log_interaction_falsy_json From_2_3 w_ok
           (mkRequest (hdr "abc123") (Parsed (Py.Dict ∅))) s0 "abc123"
           (Py.Dict ∅)).
  - split; [split; [reflexivity|discriminate]|reflexivity].
  - reflexivity.
  - reflexivity.
Defined.

(** C4 fails as stated.  With the right key, a body that is not valid
    JSON makes [get_json()] raise: the view returns nothing and Flask
    answers with its own HTML page; and the JSON array [[1]], which has
    no [userMessage], makes [data.get] raise an [AttributeError], which
    Flask answers with status 500.  Neither is a 400 with a JSON body
    returned by the view. *)
Lemma bad_request_not_always_json_400 :
  authorized w_ok req_malformed "abc123"
  ∧ body req_malformed = Malformed
  ∧ ¬ returns_json 400 (log_interaction From_2_3 w_ok req_malformed s0)
  ∧ reply (fst (log_interaction From_2_3 w_ok req_malformed s0))
    = (400%Z, HtmlBody)
  ∧ authorized w_ok req_array "abc123"
  ∧ body req_array = Parsed (Py.List [Py.Int 1])
  ∧ ¬ returns_json 400 (log_interaction From_2_3 w_ok req_array s0)
  ∧ reply (fst (log_interaction From_2_3 w_ok req_array s0))
    = (500%Z, HtmlBody).
Proof.
  assert (Ha : ∀ b, authorized w_ok (mkRequest (hdr "abc123") b) "abc123").
  { intros b. split; [split; [reflexivity|discriminate]|reflexivity]. }
  assert (Hn : ∀ req e,
            log_interaction From_2_3 w_ok req s0 = (Raise e, s0) ->
            ¬ returns_json 400 (log_interaction From_2_3 w_ok req s0)).
  { intros req e He [b Hb]. by rewrite He in Hb. }
  split; [apply Ha|]. split; [reflexivity|].
  split; [by eapply Hn; vm_compute|]. split; [by vm_compute|].
  split; [apply Ha|]. split; [reflexivity|].
  split; [by eapply Hn; vm_compute|]. by vm_compute.
Qed.

(** C4, amended.  With the right key: a body that parses to a falsy value,
    or to an object whose [userMessage] or [gptResponse] is missing or the
    empty string, answers 400 with a JSON body [{"error": ...}]; a body
    that is not valid JSON makes [get_json()] raise werkzeug's
    [BadRequest], which Flask answers with status 400 and its HTML page.
    In each case the table is left as it was. *)
Theorem log_interaction_bad_request fl w req s k :
  authorized w req k ->
  (body req = Malformed ->
     log_interaction fl w req s = (Raise (Py.HTTPException Py.BadRequest), s)
     ∧ reply (fst (log_interaction fl w req s)) = (400%Z, HtmlBody))
  ∧ (∀ v, body req = Parsed v ->
       Py.truthy v = false
       ∨ (∃ d, v = Py.Dict d
            ∧ (missing_or_empty d "userMessage"
               ∨ missing_or_empty d "gptResponse")) ->
       ∃ msg l,
         log_interaction fl w req s =
           (Return (jsonify {[ "error" := Py.Str msg ]}, 400%Z), printed l s))
  ∧ (body req = Malformed ∨ (∃ v, body req = Parsed v
        ∧ (Py.truthy v = false
           ∨ ∃ d, v = Py.Dict d
               ∧ (missing_or_empty d "userMessage"
                  ∨ missing_or_empty d "gptResponse"))) ->
     table (snd (log_interaction fl w req s)) = table s).
Proof.
  intros Ha.
  assert (H1 : body req = Malformed ->
    log_interaction fl w req s = (Raise (Py.HTTPException Py.BadRequest), s)).
  { intros Hb. pass_auth Ha. unfold get_json, bind at 1. by rewrite Hb. }
  assert (H2 : ∀ v, body req = Parsed v ->
       Py.truthy v = false
       ∨ (∃ d, v = Py.Dict d
            ∧ (missing_or_empty d "userMessage"
               ∨ missing_or_empty d "gptResponse")) ->
       ∃ msg l,
         log_interaction fl w req s =
           (Return (jsonify {[ "error" := Py.Str msg ]}, 400%Z), printed l s)).
  { intros v Hb [Hv | (d & -> & Hm)].
    - do 2 eexists. by apply (log_interaction_falsy_body _ _ _ _ _ _ Ha Hb).
    - destruct (decide (d = ∅)) as [->|Hd].
      + do 2 eexists.
        by apply (log_interaction_falsy_body _ _ _ _ _ _ Ha Hb).
      + do 2 eexists.
        apply (log_interaction_falsy_field _ _ _ _ _ _ Ha Hb Hd).
        destruct Hm as [Hm | Hm]; [left | right];
          by apply missing_or_empty_falsy. }
  split; [|split].
  - intros Hb. by rewrite (H1 Hb).
  - exact H2.
  - intros [Hb | (v & Hb & Hv)].
    + by rewrite (H1 Hb).
    + destruct (H2 v Hb Hv) as (msg & l & ->). reflexivity.
Qed.

Lemma log_interaction_bad_request_witness :
  ∃ msg l,
    log_interaction From_2_3 w_ok
      (mkRequest (hdr "abc123")
         (Parsed (Py.Dict {[ "userMessage" := Py.Str "hi";
                             "gptResponse" := Py.Str "" ]}))) s0 =
      (Return (jsonify {[ "error" := Py.Str msg ]}, 400%Z), printed l s0).
Proof.
  destruct (log_interaction_bad_request From_2_3 w_ok
    (mkRequest (hdr "abc123")
       (Parsed (Py.Dict {[ "userMessage" := Py.Str "hi";
                           "gptResponse" := Py.Str "" ]}))) s0 "abc123")
    as (_ & H & _).
  - split; [split; [reflexivity|discriminate]|reflexivity].
  - apply (H _ eq_refl). right. eexists. split; [reflexivity|].
    right. right. reflexivity.
Defined.

(** ** The write *)

(** C1 fails as stated.  The request of the specification's example, with
    the right key and both fields, is answered 500 and stores nothing when
    the database cannot be reached. *)
Lemma valid_request_database_down :
  authorized w_down req_ok "abc123"
  ∧ body req_ok = Parsed (Py.Dict hi_hello)
  ∧ hi_hello !! "userMessage" = Some (Py.Str "hi")
  ∧ hi_hello !! "gptResponse" = Some (Py.Str "hello")
  ∧ log_interaction From_2_3 w_down req_ok s0 =
      (Return (jsonify {[ "error" :=
                 Py.Str "Failed to log interaction: could not connect to server" ]},
               500%Z),
       mkState [] [mkSess [] true]
         [ErrLogFailed (Py.OperationalError "could not connect to server")])
  ∧ ¬ returns_json 200 (log_interaction From_2_3 w_down req_ok s0)
  ∧ table (snd (log_interaction From_2_3 w_down req_ok s0)) = table s0.
Proof.
  split; [split; [split; [reflexivity|discriminate]|reflexivity]|].
  repeat split; try (vm_compute; reflexivity).
  intros [b Hb]. vm_compute in Hb. discriminate.
Qed.

(** C1, amended.  A call with the configured secret in [X-API-KEY] and a
    JSON object whose [userMessage] and [gptResponse] are non-empty
    strings, when the database accepts the INSERT (no fault, and the new
    UUID is not yet a key of the table), appends exactly one row: the two
    fields, [userId] and [conversationId] or NULL where absent, the new
    UUID as id and the server's UTC clock as timestamp; it answers 200
    with [{"status": "success", "message": "Interaction logged
    successfully"}]. *)
Theorem log_interaction_logged fl w req s k d um gr :
  authorized w req k ->
  body req = Parsed (Py.Dict d) ->
  d !! "userMessage" = Some (Py.Str um) -> um ≠ "" ->
  d !! "gptResponse" = Some (Py.Str gr) -> gr ≠ "" ->
  db_fault w = None ->
  uuid4 w ∉ ids (table s) ->
  log_interaction fl w req s =
    (Return (jsonify {[ "status" := Py.Str "success";
                        "message" := Py.Str "Interaction logged successfully" ]},
             200%Z),
     mkState
       (table s ++ [mkRow (uuid4 w) (default Py.None_ (d !! "userId"))
                          (Py.Str um) (Py.Str gr)
                          (default Py.None_ (d !! "conversationId"))
                          (utcnow w)])
       (sessions s ++ [mkSess [] true])
       (stdout s ++ [LoggedOk (Py.Str (substring 0 50 um))
                              (Py.Str (substring 0 50 gr))])).
Proof.
  intros Ha Hb Hu Hune Hg Hgne Hf Hid.
  assert (Tu : Py.truthy (Py.Str um) = true).
  { cbn. by rewrite (proj2 (String.eqb_neq _ _) Hune). }
  assert (Tg : Py.truthy (Py.Str gr) = true).
  { cbn. by rewrite (proj2 (String.eqb_neq _ _) Hgne). }
  rewrite (log_interaction_save _ _ _ _ _ _ Ha Hb); rewrite ?Hu, ?Hg; try done.
  rewrite save_to_database_eq. cbv zeta.
  by rewrite insert_ok.
Qed.

Lemma log_interaction_logged_witness :
  log_interaction From_2_3 w_ok req_ok s0 =
    (Return (jsonify {[ "status" := Py.Str "success";
                        "message" := Py.Str "Interaction logged successfully" ]},
             200%Z),
     mkState
       [mkRow "3f2b8c1e-0d4a-4c57-9a51-6f0e2d7b9c10" Py.None_
              (Py.Str "hi") (Py.Str "hello") Py.None_ 1700000000000000%Z]
       [mkSess [] true]
       [LoggedOk (Py.Str "hi") (Py.Str "hello")]).
Proof.
  apply (log_interaction_logged From_2_3 w_ok req_ok s0 "abc123" hi_hello
           "hi" "hello").
  - split; [split; [reflexivity|discriminate]|reflexivity].
  - reflexivity.
  - reflexivity.
  - discriminate.
  - reflexivity.
  - discriminate.
  - reflexivity.
  - vm_compute. apply not_elem_of_nil.
Defined.




(** ** The other view *)

(** The view of [GET /health], once the application serves: it answers
    200 with the fixed body [{"status": "healthy", "message": "API is
    running"}] for every world, request and state, and changes nothing. *)
Theorem health_check_static fl w req s :
  serve fl (GET_health w req) s =
    (Return (jsonify {[ "status" := Py.Str "healthy";
                        "message" := Py.Str "API is running" ]}, 200%Z), s)
  ∧ reply (fst (health_check s)) =
      (200%Z, JsonBody (jsonify {[ "status" := Py.Str "healthy";
                                   "message" := Py.Str "API is running" ]}))
  ∧ snd (health_check s) = s.
Proof. done. Qed.

(** ** Rows of the table *)

(** One call leaves the table alone or appends one row, whose key is new,
    whose clock and UUID are the server's, and whose two texts are
    truthy. *)
Lemma serve_table fl c s :
  table (snd (serve fl c s)) = table s
  ∨ ∃ w req r,
      c = POST_log_interaction w req
      ∧ table (snd (serve fl c s)) = table s ++ [r]
      ∧ (id r ∉ ids (table s))
      ∧ id r = uuid4 w ∧ timestamp r = utcnow w
      ∧ Py.truthy (user_message r) = true
      ∧ Py.truthy (gpt_response r) = true.
Proof.
  destruct c as [w req | w req]; [|by left]. cbn [serve].
  destruct (log_interaction_cases fl w req s)
    as [(Ht & _) | (k & d & Ha & Hb & Hu & Hg)]; [by left|].
  rewrite (log_interaction_save _ _ _ _ _ _ Ha Hb Hu Hg).
  destruct (save_to_database_state w
              (default Py.None_ (d !! "userId")) _ _
              (default Py.None_ (d !! "conversationId")) s Hu Hg)
    as [_ [[Ht _] | [Hid Ht]]]; [by left|].
  right. eexists w, req, _. rewrite Ht. by repeat split.
Qed.

Lemma run_snoc fl cs c s :
  run fl (cs ++ [c]) s = snd (serve fl c (run fl cs s)).
Proof. unfold run. by rewrite foldl_snoc. Qed.

(** C6.  After any sequence of calls of the two routes, the table is the
    old table followed by the rows written since: no row was changed or
    removed; the ids stay pairwise distinct; and each new row has truthy
    (so neither NULL nor empty) [user_message] and [gpt_response] and
    carries the UUID and the clock reading of the call that wrote it. *)
Theorem persisted_rows_invariant fl cs s :
  NoDup (ids (table s)) ->
  ∃ new,
    table (run fl cs s) = table s ++ new
    ∧ NoDup (ids (table (run fl cs s)))
    ∧ Forall (λ r, nonempty (user_message r) ∧ nonempty (gpt_response r)
                   ∧ written_by cs r) new.
Proof.
  intros Hnd. induction cs as [|c cs IH] using rev_ind.
  - exists []. by rewrite app_nil_r.
  - destruct IH as (new & Ht & Hn & Hall). rewrite run_snoc.
    assert (Hmono : Forall (λ r, nonempty (user_message r)
                                 ∧ nonempty (gpt_response r)
                                 ∧ written_by (cs ++ [c]) r) new).
    { eapply Forall_impl; [exact Hall|].
      intros r (Hu & Hg & w & req & Hin & Hw).
      split; [done|]. split; [done|].
      exists w, req. split; [|done]. apply elem_of_app. by left. }
    destruct (serve_table fl c (run fl cs s))
      as [Hs | (w & req & r & -> & Hs & Hid & Hu4 & Hts & Hu & Hg)].
    + exists new. rewrite Hs. done.
    + exists (new ++ [r]). rewrite Hs, Ht, app_assoc. split; [done|]. split.
      * rewrite <- Ht. unfold ids in *. rewrite fmap_app.
        apply NoDup_app. split; [done|]. split.
        -- intros x Hx [->|Hx']%elem_of_cons; [done|].
           by apply elem_of_nil in Hx'.
        -- apply NoDup_singleton.
      * apply Forall_app. split; [done|]. constructor; [|done].
        split; [|split].
        -- split; [done|]. split;
             [by apply truthy_not_None|by apply truthy_not_empty_Str].
        -- split; [done|]. split;
             [by apply truthy_not_None|by apply truthy_not_empty_Str].
        -- exists w, req. split; [|done]. apply elem_of_app. right.
           by apply list_elem_of_singleton.
Qed.

Lemma persisted_rows_invariant_witness :
  ∃ new,
    table (run From_2_3
             [POST_log_interaction w_ok req_ok; GET_health w_ok req_ok;
              POST_log_interaction w_ok req_ok] s0) = table s0 ++ new
    ∧ NoDup (ids (table (run From_2_3
             [POST_log_interaction w_ok req_ok; GET_health w_ok req_ok;
              POST_log_interaction w_ok req_ok] s0)))
    ∧ Forall (λ r, nonempty (user_message r) ∧ nonempty (gpt_response r)
                   ∧ written_by
                       [POST_log_interaction w_ok req_ok;
                        GET_health w_ok req_ok;
                        POST_log_interaction w_ok req_ok] r) new.
Proof.
  apply (persisted_rows_invariant From_2_3
           [POST_log_interaction w_ok req_ok; GET_health w_ok req_ok;
            POST_log_interaction w_ok req_ok] s0).
  simpl. apply NoDup_nil_2.
Defined.

(** ** What the view reads of the body *)

(** Two non-empty objects that agree on the four keys are served alike. *)
Lemma log_interaction_reads_four_keys fl w hs d1 d2 s :
  d1 ≠ ∅ -> d2 ≠ ∅ ->
  (∀ key, key ∈ read_keys -> d1 !! key = d2 !! key) ->
  log_interaction fl w (mkRequest hs (Parsed (Py.Dict d1))) s =
  log_interaction fl w (mkRequest hs (Parsed (Py.Dict d2))) s.
Proof.
  intros H1 H2 Heq. unfold log_interaction, get_json. cbn [body headers].
  destruct (negb (Py.truthy (Py.of_option (API_KEY w)))); [done|].
  destruct (negb _ || negb _); [done|].
  rewrite !bind_ret.
  rewrite (proj2 (truthy_Dict d1) H1), (proj2 (truthy_Dict d2) H2).
  cbn [negb Py.get lift]. rewrite !bind_ret.
  rewrite !Heq; [done|unfold read_keys; set_solver..].
Qed.

(** C9.  When a call is answered 200, the stored timestamp is the server's
    clock reading, and a key of the body other than the four the view
    reads (a client "timestamp", say) has no influence: with that key set
    to any value, or removed, the reply and the whole resulting state,
    the stored row included, are the same. *)
Theorem client_timestamp_ignored fl w hs d s key v b :
  key ∉ read_keys ->
  fst (log_interaction fl w (mkRequest hs (Parsed (Py.Dict d))) s)
    = Return (b, 200%Z) ->
  log_interaction fl w (mkRequest hs (Parsed (Py.Dict (<[key := v]> d)))) s
    = log_interaction fl w (mkRequest hs (Parsed (Py.Dict d))) s
  ∧ log_interaction fl w (mkRequest hs (Parsed (Py.Dict (delete key d)))) s
    = log_interaction fl w (mkRequest hs (Parsed (Py.Dict d))) s
  ∧ ∃ r, table (snd (log_interaction fl w
                       (mkRequest hs (Parsed (Py.Dict d))) s))
           = table s ++ [r]
         ∧ timestamp r = utcnow w.
Proof.
  intros Hkey Hok.
  destruct (log_interaction_cases fl w (mkRequest hs (Parsed (Py.Dict d))) s)
    as [(_ & _ & Hno) | (k & d' & Ha & Hb & Hu & Hg)]; [by destruct (Hno b)|].
  cbn [body] in Hb. injection Hb as <-.
  assert (Hum : ∃ um, d !! "userMessage" = Some um).
  { destruct (d !! "userMessage"); [by eexists|done]. }
  destruct Hum as [um Hum].
  assert (Hne : "userMessage" ≠ key).
  { intros <-. apply Hkey. unfold read_keys. set_solver. }
  assert (Hd : d ≠ ∅).
  { intros ->. by rewrite lookup_empty in Hum. }
  split; [|split].
  - apply log_interaction_reads_four_keys; [|done|].
    + intros He. apply (f_equal (λ m, m !! key)) in He.
      by rewrite lookup_insert_eq, lookup_empty in He.
    + intros x Hx. apply lookup_insert_ne. by intros ->.
  - apply log_interaction_reads_four_keys; [|done|].
    + intros He. apply (f_equal (λ m, m !! "userMessage")) in He.
      rewrite lookup_delete_ne, lookup_empty in He by done. congruence.
    + intros x Hx. apply lookup_delete_ne. by intros ->.
  - rewrite (log_interaction_save _ _ _ _ _ _ Ha eq_refl Hu Hg) in Hok |- *.
    destruct (save_to_database_state w
                (default Py.None_ (d !! "userId")) _ _
                (default Py.None_ (d !! "conversationId")) s Hu Hg)
      as [_ [[_ Hno] | [_ Ht]]]; [by destruct (Hno b)|].
    eexists. split; [exact Ht|done].
Qed.

Lemma client_timestamp_ignored_witness :
  log_interaction From_2_3 w_ok
    (mkRequest (hdr "abc123")
       (Parsed (Py.Dict (<["timestamp" := Py.Str "1999-12-31T23:59:59Z"]>
                           hi_hello)))) s0
  = log_interaction From_2_3 w_ok
      (mkRequest (hdr "abc123") (Parsed (Py.Dict hi_hello))) s0.
Proof.
  apply (client_timestamp_ignored From_2_3 w_ok (hdr "abc123") hi_hello s0
           "timestamp" (Py.Str "1999-12-31T23:59:59Z")
           (jsonify {[ "status" := Py.Str "success";
                       "message" := Py.Str "Interaction logged successfully" ]})).
  - unfold read_keys. intros H. 
    repeat (apply elem_of_cons in H as [H|H]; [discriminate H|]).
    by apply elem_of_nil in H.
  - vm_compute. reflexivity.
Defined.

(** ** Start-up *)

(** Once the engine is built, start-up completes whether or not the table
    can be created: the [try] of lines 54-59 catches the failure and
    prints it. *)
Lemma startup_survives_create_all {Engine : Type}
    (create_engine : option string -> result Engine)
    (create_all : Engine -> result unit) url eng s :
  create_engine url = Return eng ->
  ∃ s', startup create_engine create_all url s = (Return eng, s')
        ∧ table s' = table s.
Proof.
  intros He. unfold startup, bind, try_except, of_result. rewrite He.
  destruct (negb _); cbn; destruct (create_all eng); cbn; by eexists.
Qed.

(** C2, where the code departs from it.  With [DATABASE_URL] unset, and a
    [create_engine] that refuses [None], as SQLAlchemy's does, the import
    of app.py prints the warning of line 25 and then stops with the
    exception of line 31, which no [try] encloses: the application does
    not start. *)
Theorem startup_stops_without_database_url {Engine : Type}
    (create_engine : option string -> result Engine)
    (create_all : Engine -> result unit) e s :
  create_engine None = Raise e ->
  startup create_engine create_all None s =
    (Raise e, printed WarnDatabaseUrlUnset s).
Proof.
  intros He. unfold startup, bind, of_result. cbn. by rewrite He.
Qed.

Lemma startup_stops_without_database_url_witness :
  startup sqlalchemy_create_engine create_all_unreachable None s0 =
    (Raise (Py.ArgumentError "Expected string or URL object, got None"),
     printed WarnDatabaseUrlUnset s0).
Proof.
  apply (startup_stops_without_database_url sqlalchemy_create_engine
           create_all_unreachable
           (Py.ArgumentError "Expected string or URL object, got None") s0).
  reflexivity.
Defined.

(** * Further properties of the views *)

(** ** Every way through [log_interaction] *)

Lemma log_interaction_no_secret fl w req s :
  Py.truthy (Py.of_option (API_KEY w)) = false ->
  log_interaction fl w req s =
    (Return (error_body "Server configuration error: API key not set", 500%Z),
     printed ErrApiKeyUnset s).
Proof. intros H. unfold log_interaction. by rewrite H. Qed.

Lemma log_interaction_wrong_key fl w req s k :
  configured w k ->
  headers req !! "X-API-KEY" ≠ Some k ->
  log_interaction fl w req s =
    (Return (error_body "Unauthorized: Invalid API Key", 401%Z),
     printed (AuthFailed (Py.of_option (headers req !! "X-API-KEY"))
                         (Py.Str k)) s).
Proof.
  intros [Hk Hne] Hh. unfold log_interaction.
  rewrite Hk, (proj2 (truthy_env_Some _) Hne). cbn [negb].
  by rewrite (bool_decide_eq_false_2 _ Hh), orb_true_r.
Qed.

(** The view ends in one of three ways: an error reply built by the view
    itself (one call of print), an exception of line 81 or line 86 (nothing
    changed), or step 4. *)
Lemma log_interaction_paths fl w req s :
  (∃ msg st l,
     (st = 400 ∨ st = 401 ∨ st = 500)%Z
     ∧ log_interaction fl w req s = (Return (error_body msg, st), printed l s))
  ∨ (∃ e,
       ((∃ h, e = Py.HTTPException h ∧ ∀ v, body req ≠ Parsed v)
        ∨ (∃ v, body req = Parsed v ∧ Py.truthy v = true
             ∧ (∀ d, v ≠ Py.Dict d)
             ∧ e = Py.AttributeError
                     ("'" +:+ Py.type_name v
                      +:+ "' object has no attribute 'get'")))
       ∧ log_interaction fl w req s = (Raise e, s))
  ∨ (∃ k d, authorized w req k
      ∧ body req = Parsed (Py.Dict d)
      ∧ Py.truthy (default Py.None_ (d !! "userMessage")) = true
      ∧ Py.truthy (default Py.None_ (d !! "gptResponse")) = true).
Proof.
  destruct (Py.truthy (Py.of_option (API_KEY w))) eqn:Hs; cycle 1.
  { left. do 3 eexists. split; [|by apply log_interaction_no_secret]. auto. }
  destruct (API_KEY w) as [k|] eqn:Hk; [|done].
  apply truthy_env_Some in Hs.
  destruct (decide (headers req !! "X-API-KEY" = Some k)) as [Hh|Hh]; cycle 1.
  { left. do 3 eexists. split; [|by apply log_interaction_wrong_key]. auto. }
  assert (Ha : authorized w req k) by done.
  destruct (body req) as [| |v] eqn:Hb.
  - destruct fl.
    + left. do 3 eexists.
      split; [|by apply (log_interaction_legacy_mimetype _ _ _ _ Ha)]. auto.
    + right. left.
      destruct (log_interaction_get_json_raises From_2_1 w req s k Ha)
        as [h Hr]; [by right|].
      eexists. split; [|exact Hr]. left. by eexists.
    + right. left.
      destruct (log_interaction_get_json_raises From_2_3 w req s k Ha)
        as [h Hr]; [by right|].
      eexists. split; [|exact Hr]. left. by eexists.
  - right. left.
    destruct (log_interaction_get_json_raises fl w req s k Ha) as [h Hr];
      [by left|].
    eexists. split; [|exact Hr]. left. by eexists.
  - destruct (Py.truthy v) eqn:Hv; cycle 1.
    { left. do 3 eexists.
      split; [|by apply (log_interaction_falsy_body _ _ _ _ _ _ Ha Hb)]. auto. }
    assert (Hcase : (∃ d, v = Py.Dict d) ∨ (∀ d, v ≠ Py.Dict d)).
    { destruct v; try (by right); left; by eexists. }
    destruct Hcase as [[d ->]|Hnd]; cycle 1.
    { right. left. eexists. split; [right; exists v|].
      - by repeat (split; [done|]).
      - by apply (log_interaction_not_object _ _ _ _ _ _ Ha Hb Hv). }
    destruct (Py.truthy (default Py.None_ (d !! "userMessage"))) eqn:Hu;
      cycle 1.
    { left. apply truthy_Dict in Hv. do 3 eexists.
      split; [|apply (log_interaction_falsy_field _ _ _ _ _ _ Ha Hb Hv)];
        auto. }
    destruct (Py.truthy (default Py.None_ (d !! "gptResponse"))) eqn:Hg;
      cycle 1.
    { left. apply truthy_Dict in Hv. do 3 eexists.
      split; [|apply (log_interaction_falsy_field _ _ _ _ _ _ Ha Hb Hv)];
        auto. }
    right. right. by exists k, d.
Qed.

(** Step 4 on the object d, outcome by outcome: the INSERT is refused;
    or the row is stored and line 108 prints; or the row is stored and
    line 108 raises. *)
Lemma log_interaction_step4 fl w req s k d :
  authorized w req k ->
  body req = Parsed (Py.Dict d) ->
  Py.truthy (default Py.None_ (d !! "userMessage")) = true ->
  Py.truthy (default Py.None_ (d !! "gptResponse")) = true ->
  let um := default Py.None_ (d !! "userMessage") in
  let gr := default Py.None_ (d !! "gptResponse") in
  let done_ := sessions s ++ [mkSess [] true] in
  (∃ e, (db_fault w ≠ None ∨ uuid4 w ∈ ids (table s))
        ∧ log_interaction fl w req s =
            (Return (failed_body e, 500%Z),
             mkState (table s) done_ (stdout s ++ [ErrLogFailed e])))
  ∨ (db_fault w = None ∧ (uuid4 w ∉ ids (table s))
     ∧ ((∃ u g, Py.slice50 um = inr u ∧ Py.slice50 gr = inr g
           ∧ log_interaction fl w req s =
               (Return (ok_body, 200%Z),
                mkState (table s ++ [row_of w d]) done_
                        (stdout s ++ [LoggedOk u g])))
        ∨ (∃ e, after_commit um gr = inl e
             ∧ log_interaction fl w req s =
                 (Return (failed_body e, 500%Z),
                  mkState (table s ++ [row_of w d]) done_
                          (stdout s ++ [ErrLogFailed e]))))).
Proof.
  intros Ha Hb Hu Hg um gr done_.
  rewrite (log_interaction_save _ _ _ _ _ _ Ha Hb Hu Hg).
  rewrite save_to_database_eq. cbv zeta. fold um gr done_.
  destruct (insert w (table s) _) as [t'|e] eqn:Ei.
  - right. apply insert_Return in Ei as (Hf & Hid & _ & _ & ->).
    cbn in Hid. split; [done|]. split; [done|].
    change (mkRow _ _ _ _ _ _) with (row_of w d).
    unfold after_commit.
    destruct (Py.slice50 um) as [e|u] eqn:Eu; [right; by eexists|].
    destruct (Py.slice50 gr) as [e|g] eqn:Eg; [right; by eexists|].
    left. by exists u, g.
  - left. exists e. split; [|done].
    destruct (db_fault w) eqn:Hf; [by left|right].
    destruct (decide (uuid4 w ∈ ids (table s))) as [|Hid]; [done|].
    rewrite insert_ok in Ei; done.
Qed.

(** ** Replies and exceptions *)

(** Whenever the view returns, the status is 200, 400, 401 or 500: a 200
    carries the fixed success object, every other status an object with
    the single key "error". *)
Theorem log_interaction_response_shapes fl w req s b st :
  fst (log_interaction fl w req s) = Return (b, st) ->
  st = 200%Z ∧ b = jsonify {[ "status" := Py.Str "success";
                              "message" :=
                                Py.Str "Interaction logged successfully" ]}
  ∨ (st = 400 ∨ st = 401 ∨ st = 500)%Z
    ∧ ∃ msg, b = jsonify {[ "error" := Py.Str msg ]}.
Proof.
  intros Hr.
  destruct (log_interaction_paths fl w req s)
    as [(msg & st' & l & Hst & He) | [(e & _ & He)
        | (k & d & Ha & Hb & Hu & Hg)]].
  - rewrite He in Hr. injection Hr as <- <-. right. split; [done|].
    by eexists.
  - by rewrite He in Hr.
  - destruct (log_interaction_step4 fl w req s k d Ha Hb Hu Hg)
      as [(e & _ & He) | (_ & _ & [(u & g & _ & _ & He) | (e & _ & He)])];
      rewrite He in Hr; injection Hr as <- <-.
    + right. split; [auto|]. by eexists.
    + by left.
    + right. split; [auto|]. by eexists.
Qed.

Lemma log_interaction_response_shapes_witness :
  401%Z = 200%Z ∧ error_body "Unauthorized: Invalid API Key" =
                  jsonify {[ "status" := Py.Str "success";
                             "message" :=
                               Py.Str "Interaction logged successfully" ]}
  ∨ (401 = 400 ∨ 401 = 401 ∨ 401 = 500)%Z
    ∧ ∃ msg, error_body "Unauthorized: Invalid API Key"
             = jsonify {[ "error" := Py.Str msg ]}.
Proof.
  apply (log_interaction_response_shapes From_2_3 w_ok
           (mkRequest ∅ Malformed) s0).
  vm_compute. reflexivity.
Defined.

(** When the body parses to a JSON value, the view raises only the
    [AttributeError] of [data.get] (line 86), and only for a truthy value
    that is not an object; nothing was then stored, no session opened and
    nothing printed.  So an exception of [session.commit()] or of the
    slices of line 108 does not leave the view: the [except] clause of
    line 111 answers it. *)
Theorem log_interaction_raises_only_at_get fl w req s v e :
  body req = Parsed v ->
  fst (log_interaction fl w req s) = Raise e ->
  Py.truthy v = true
  ∧ (∀ d, v ≠ Py.Dict d)
  ∧ e = Py.AttributeError
          ("'" +:+ Py.type_name v +:+ "' object has no attribute 'get'")
  ∧ snd (log_interaction fl w req s) = s.
Proof.
  intros Hv Hr.
  destruct (log_interaction_paths fl w req s)
    as [(msg & st' & l & Hst & He) | [(e' & Hsh & He)
        | (k & d & Ha & Hb & Hu & Hg)]].
  - by rewrite He in Hr.
  - rewrite He in Hr |- *. injection Hr as <-.
    destruct Hsh as [(h & _ & Hno) | (v' & Hv' & Ht & Hnd & ->)].
    + by destruct (Hno v).
    + rewrite Hv in Hv'. by injection Hv' as <-.
  - destruct (log_interaction_step4 fl w req s k d Ha Hb Hu Hg)
      as [(e' & _ & He) | (_ & _ & [(u & g & _ & _ & He) | (e' & _ & He)])];
      by rewrite He in Hr.
Qed.

Lemma log_interaction_raises_only_at_get_witness :
  Py.truthy (Py.List [Py.Int 1]) = true
  ∧ (∀ d, Py.List [Py.Int 1] ≠ Py.Dict d)
  ∧ Py.AttributeError "'list' object has no attribute 'get'"
    = Py.AttributeError
        ("'" +:+ Py.type_name (Py.List [Py.Int 1])
         +:+ "' object has no attribute 'get'")
  ∧ snd (log_interaction From_2_3 w_ok req_array s0) = s0.
Proof.
  apply (log_interaction_raises_only_at_get From_2_3 w_ok req_array s0).
  - reflexivity.
  - vm_compute. reflexivity.
Defined.

(** With the right key, a truthy JSON body that is not an object (a
    non-empty array or string, a non-zero number, [true]) makes line 86
    raise [AttributeError]: nothing is stored or printed, and Flask
    answers 500 with an HTML page instead of the JSON 400 of step 3. *)
Theorem log_interaction_non_object_body fl w req s k v :
  authorized w req k ->
  body req = Parsed v ->
  Py.truthy v = true ->
  (∀ d, v ≠ Py.Dict d) ->
  log_interaction fl w req s =
    (Raise (Py.AttributeError
              ("'" +:+ Py.type_name v +:+ "' object has no attribute 'get'")),
     s)
  ∧ reply (fst (log_interaction fl w req s)) = (500%Z, HtmlBody).
Proof.
  intros Ha Hb Hv Hd.
  by rewrite (log_interaction_not_object _ _ _ _ _ _ Ha Hb Hv Hd).
Qed.

Lemma log_interaction_non_object_body_witness :
  log_interaction From_2_3 w_ok
    (mkRequest (hdr "abc123") (Parsed (Py.Str "hi"))) s0 =
    (Raise (Py.AttributeError
              ("'" +:+ Py.type_name (Py.Str "hi")
               +:+ "' object has no attribute 'get'")),
     s0)
  ∧ reply (fst (log_interaction From_2_3 w_ok
                  (mkRequest (hdr "abc123") (Parsed (Py.Str "hi"))) s0))
    = (500%Z, HtmlBody).
Proof.
  apply (log_interaction_non_object_body From_2_3 w_ok
           (mkRequest (hdr "abc123") (Parsed (Py.Str "hi"))) s0 "abc123").
  - split; [split; [reflexivity|discriminate]|reflexivity].
  - reflexivity.
  - reflexivity.
  - discriminate.
Defined.

(** The view calls [print] exactly once on the way to each reply it
    returns: [stdout] gains one entry, the argument of that call. *)
Theorem log_interaction_prints_once fl w req s b st :
  fst (log_interaction fl w req s) = Return (b, st) ->
  ∃ l, stdout (snd (log_interaction fl w req s)) = stdout s ++ [l].
Proof.
  intros Hr.
  destruct (log_interaction_paths fl w req s)
    as [(msg & st' & l & Hst & He) | [(e & _ & He)
        | (k & d & Ha & Hb & Hu & Hg)]].
  - rewrite He. by eexists.
  - by rewrite He in Hr.
  - destruct (log_interaction_step4 fl w req s k d Ha Hb Hu Hg)
      as [(e & _ & He) | (_ & _ & [(u & g & _ & _ & He) | (e & _ & He)])];
      rewrite He; by eexists.
Qed.

Lemma log_interaction_prints_once_witness :
  ∃ l, stdout (snd (log_interaction From_2_3 w_ok req_ok s0))
       = stdout s0 ++ [l].
Proof.
  apply (log_interaction_prints_once From_2_3 w_ok req_ok s0 ok_body 200%Z).
  vm_compute. reflexivity.
Defined.

(** ** What is stored, and when *)

(** A 200 can be trusted: it is only returned for a request with the
    configured key and a JSON object, after the database took the INSERT,
    and the table then ends with exactly the row read from that object
    ([userId] and [conversationId] as sent, NULL when absent), with the
    new UUID and the server's clock; the session is closed. *)
Theorem log_interaction_200_sound fl w req s b :
  fst (log_interaction fl w req s) = Return (b, 200%Z) ->
  ∃ k d, authorized w req k
         ∧ body req = Parsed (Py.Dict d)
         ∧ db_fault w = None
         ∧ (uuid4 w ∉ ids (table s))
         ∧ table (snd (log_interaction fl w req s)) = table s ++ [row_of w d]
         ∧ sessions (snd (log_interaction fl w req s))
           = sessions s ++ [mkSess [] true].
Proof.
  intros Hr.
  destruct (log_interaction_paths fl w req s)
    as [(msg & st' & l & Hst & He) | [(e & _ & He)
        | (k & d & Ha & Hb & Hu & Hg)]].
  - rewrite He in Hr. injection Hr as _ Hst'. lia.
  - by rewrite He in Hr.
  - exists k, d.
    destruct (log_interaction_step4 fl w req s k d Ha Hb Hu Hg)
      as [(e & _ & He) | (Hf & Hid & [(u & g & _ & _ & He) | (e & _ & He)])];
      rewrite He in Hr |- *; [done| |done].
    by repeat (split; [done|]).
Qed.

Lemma log_interaction_200_sound_witness :
  ∃ k d, authorized w_ok req_ok k
         ∧ body req_ok = Parsed (Py.Dict d)
         ∧ db_fault w_ok = None
         ∧ (uuid4 w_ok ∉ ids (table s0))
         ∧ table (snd (log_interaction From_2_3 w_ok req_ok s0))
           = table s0 ++ [row_of w_ok d]
         ∧ sessions (snd (log_interaction From_2_3 w_ok req_ok s0))
           = sessions s0 ++ [mkSess [] true].
Proof.
  apply (log_interaction_200_sound From_2_3 w_ok req_ok s0 ok_body).
  vm_compute. reflexivity.
Defined.

(** A 500 does not mean that nothing was stored.  When the database takes
    the INSERT and a slice of line 108 then raises (a required field that
    is a number or [true], say), the [except] branch answers 500 with that
    exception's text, although the row is committed; the rollback of line
    112 comes after the commit and undoes nothing. *)
Theorem log_interaction_stored_but_500 fl w req s k d e :
  authorized w req k ->
  body req = Parsed (Py.Dict d) ->
  Py.truthy (default Py.None_ (d !! "userMessage")) = true ->
  Py.truthy (default Py.None_ (d !! "gptResponse")) = true ->
  db_fault w = None ->
  uuid4 w ∉ ids (table s) ->
  after_commit (default Py.None_ (d !! "userMessage"))
               (default Py.None_ (d !! "gptResponse")) = inl e ->
  log_interaction fl w req s =
    (Return (jsonify {[ "error" :=
               Py.Str ("Failed to log interaction: " +:+ Py.str e) ]},
             500%Z),
     mkState (table s ++ [row_of w d]) (sessions s ++ [mkSess [] true])
             (stdout s ++ [ErrLogFailed e])).
Proof.
  intros Ha Hb Hu Hg Hf Hid Hac.
  destruct (log_interaction_step4 fl w req s k d Ha Hb Hu Hg)
    as [(e' & [Hf' | Hid'] & _)
        | (_ & _ & [(u & g & Eu & Eg & _) | (e' & He' & He)])];
    try done.
  - unfold after_commit in Hac. by rewrite Eu, Eg in Hac.
  - rewrite He' in Hac. by injection Hac as ->.
Qed.

Lemma log_interaction_stored_but_500_witness :
  log_interaction From_2_3 w_ok
    (mkRequest (hdr "abc123") (Parsed (Py.Dict five_hello))) s0 =
    (Return (jsonify {[ "error" :=
               Py.Str ("Failed to log interaction: "
                       +:+ Py.str (Py.TypeError
                                     "'int' object is not subscriptable")) ]},
             500%Z),
     mkState (table s0 ++ [row_of w_ok five_hello])
             (sessions s0 ++ [mkSess [] true])
             (stdout s0 ++ [ErrLogFailed
                              (Py.TypeError
                                 "'int' object is not subscriptable")])).
Proof.
  apply (log_interaction_stored_but_500 From_2_3 w_ok
           (mkRequest (hdr "abc123") (Parsed (Py.Dict five_hello))) s0
           "abc123" five_hello).
  - split; [split; [reflexivity|discriminate]|reflexivity].
  - reflexivity.
  - reflexivity.
  - reflexivity.
  - reflexivity.
  - vm_compute. apply not_elem_of_nil.
  - reflexivity.
Defined.

(** The table changes only for a request that carries the configured key
    and a JSON object with truthy [userMessage] and [gptResponse], and
    then by exactly one appended row, the one read from that object. *)
Theorem log_interaction_write_sound fl w req s :
  table (snd (log_interaction fl w req s)) ≠ table s ->
  ∃ k d, authorized w req k
         ∧ body req = Parsed (Py.Dict d)
         ∧ Py.truthy (default Py.None_ (d !! "userMessage")) = true
         ∧ Py.truthy (default Py.None_ (d !! "gptResponse")) = true
         ∧ table (snd (log_interaction fl w req s)) = table s ++ [row_of w d].
Proof.
  intros Hne.
  destruct (log_interaction_paths fl w req s)
    as [(msg & st' & l & Hst & He) | [(e & _ & He)
        | (k & d & Ha & Hb & Hu & Hg)]].
  - by rewrite He in Hne.
  - by rewrite He in Hne.
  - exists k, d.
    destruct (log_interaction_step4 fl w req s k d Ha Hb Hu Hg)
      as [(e & _ & He) | (_ & _ & [(u & g & _ & _ & He) | (e & _ & He)])];
      rewrite He in Hne |- *; by repeat (split; [done|]).
Qed.

Lemma log_interaction_write_sound_witness :
  ∃ k d, authorized w_ok req_ok k
         ∧ body req_ok = Parsed (Py.Dict d)
         ∧ Py.truthy (default Py.None_ (d !! "userMessage")) = true
         ∧ Py.truthy (default Py.None_ (d !! "gptResponse")) = true
         ∧ table (snd (log_interaction From_2_3 w_ok req_ok s0))
           = table s0 ++ [row_of w_ok d].
Proof.
  apply (log_interaction_write_sound From_2_3 w_ok req_ok s0).
  vm_compute. discriminate.
Defined.

(** ** The two 400 replies, exactly *)

Lemma printed_inj l1 l2 s : printed l1 s = printed l2 s -> l1 = l2.
Proof.
  unfold printed. intros [= H]. apply app_inv_head in H. by injection H.
Qed.

Lemma truthy_false_iff v : Py.truthy v = false <-> falsy_shape v.
Proof.
  unfold falsy_shape. split.
  - destruct v as [|b|z|f|x|l|d]; cbn [Py.truthy]; intros H.
    + by left.
    + right. left. by rewrite H.
    + right. right. left. apply negb_false_iff, Z.eqb_eq in H. by rewrite H.
    + do 3 right. left. destruct f; try done. by eexists.
    + do 4 right. left. apply negb_false_iff, String.eqb_eq in H.
      by rewrite H.
    + do 5 right. left. apply negb_false_iff, Nat.eqb_eq in H.
      by destruct l.
    + do 6 right. apply negb_false_iff, Nat.eqb_eq, map_size_empty_iff in H.
      by rewrite H.
  - intros [-> | [-> | [-> | [[sg ->] | [-> | [-> | ->]]]]]]; try done.
Qed.

(** With the right key and a body that parses, the reply is the 400 "No
    JSON data provided" exactly when the parsed value is one of Python's
    false values: null, false, 0, 0.0, the empty string, array or
    object. *)
Theorem log_interaction_no_json_iff fl w req s k v :
  authorized w req k ->
  body req = Parsed v ->
  log_interaction fl w req s =
    (Return (jsonify {[ "error" := Py.Str "No JSON data provided" ]}, 400%Z),
     printed ErrNoJson s)
  <-> falsy_shape v.
Proof.
  intros Ha Hb. rewrite <- truthy_false_iff. split.
  - intros He. destruct (Py.truthy v) eqn:Hv; [exfalso|done].
    destruct (log_interaction_paths fl w req s)
      as [(msg & st' & l & Hst & He') | [(e & _ & He')
          | (k' & d & Ha' & Hb' & Hu & Hg)]].
    + assert (Hc : (∃ d, v = Py.Dict d) ∨ (∀ d, v ≠ Py.Dict d)).
      { destruct v; try (by right); left; by eexists. }
      destruct Hc as [[d ->] | Hnd].
      * destruct (Py.truthy (default Py.None_ (d !! "userMessage")))
          eqn:Hu;
          [destruct (Py.truthy (default Py.None_ (d !! "gptResponse")))
             eqn:Hg|].
        -- destruct (log_interaction_step4 fl w req s k d Ha Hb Hu Hg)
             as [(e & _ & H4)
                 | (_ & _ & [(u & g & _ & _ & H4) | (e & _ & H4)])];
             by rewrite H4 in He.
        -- apply truthy_Dict in Hv.
           rewrite (log_interaction_falsy_field _ _ _ _ _ _ Ha Hb Hv) in He
             by auto.
           apply (f_equal snd) in He. by apply printed_inj in He.
        -- apply truthy_Dict in Hv.
           rewrite (log_interaction_falsy_field _ _ _ _ _ _ Ha Hb Hv) in He
             by auto.
           apply (f_equal snd) in He. by apply printed_inj in He.
      * by rewrite (log_interaction_not_object _ _ _ _ _ _ Ha Hb Hv Hnd)
          in He.
    + by rewrite He' in He.
    + destruct (log_interaction_step4 fl w req s k' d Ha' Hb' Hu Hg)
        as [(e & _ & H4) | (_ & _ & [(u & g & _ & _ & H4) | (e & _ & H4)])];
        by rewrite H4 in He.
  - intros Hv. by apply (log_interaction_falsy_body _ _ _ _ _ _ Ha Hb).
Qed.

Lemma log_interaction_no_json_iff_witness :
  log_interaction From_2_3 w_ok
    (mkRequest (hdr "abc123") (Parsed (Py.List []))) s0 =
    (Return (jsonify {[ "error" := Py.Str "No JSON data provided" ]}, 400%Z),
     printed ErrNoJson s0)
  <-> falsy_shape (Py.List []).
Proof.
  apply (log_interaction_no_json_iff From_2_3 w_ok
           (mkRequest (hdr "abc123") (Parsed (Py.List []))) s0 "abc123").
  - split; [split; [reflexivity|discriminate]|reflexivity].
  - reflexivity.
Defined.

(** With the right key and a non-empty JSON object, the reply is the 400
    "'userMessage' and 'gptResponse' are required" exactly when one of the
    two fields is missing or holds a false value: not only the empty
    string, but also null, false, 0, 0.0, [[]] and [{}]. *)
Theorem log_interaction_required_iff fl w req s k d :
  authorized w req k ->
  body req = Parsed (Py.Dict d) ->
  d ≠ ∅ ->
  log_interaction fl w req s =
    (Return (jsonify {[ "error" :=
               Py.Str "'userMessage' and 'gptResponse' are required" ]},
             400%Z),
     printed ErrRequiredFields s)
  <-> falsy_shape (default Py.None_ (d !! "userMessage"))
      ∨ falsy_shape (default Py.None_ (d !! "gptResponse")).
Proof.
  intros Ha Hb Hd. rewrite <- !truthy_false_iff. split.
  - intros He.
    destruct (Py.truthy (default Py.None_ (d !! "userMessage"))) eqn:Hu;
      [|by left].
    destruct (Py.truthy (default Py.None_ (d !! "gptResponse"))) eqn:Hg;
      [|by right].
    exfalso.
    destruct (log_interaction_step4 fl w req s k d Ha Hb Hu Hg)
      as [(e & _ & H4) | (_ & _ & [(u & g & _ & _ & H4) | (e & _ & H4)])];
      by rewrite H4 in He.
  - intros Hf. by apply (log_interaction_falsy_field _ _ _ _ _ _ Ha Hb Hd).
Qed.

Lemma log_interaction_required_iff_witness :
  log_interaction From_2_3 w_ok
    (mkRequest (hdr "abc123")
       (Parsed (Py.Dict {[ "userMessage" := Py.Int 0 ]}))) s0 =
    (Return (jsonify {[ "error" :=
               Py.Str "'userMessage' and 'gptResponse' are required" ]},
             400%Z),
     printed ErrRequiredFields s0)
  <-> falsy_shape (default Py.None_
                     (({[ "userMessage" := Py.Int 0 ]}
                       : gmap string Py.value) !! "userMessage"))
      ∨ falsy_shape (default Py.None_
                       (({[ "userMessage" := Py.Int 0 ]}
                         : gmap string Py.value) !! "gptResponse")).
Proof.
  apply (log_interaction_required_iff From_2_3 w_ok
           (mkRequest (hdr "abc123")
              (Parsed (Py.Dict {[ "userMessage" := Py.Int 0 ]}))) s0
           "abc123").
  - split; [split; [reflexivity|discriminate]|reflexivity].
  - reflexivity.
  - intros H. apply (f_equal (λ m, m !! "userMessage")) in H.
    vm_compute in H. discriminate.
Defined.

(** ** The success line of the log *)

Lemma substring_0_length n s :
  String.length (substring 0 n s) = Nat.min n (String.length s).
Proof.
  revert s. induction n as [|n IH]; intros [|c s]; cbn; try done.
  by rewrite IH.
Qed.

Lemma substring_0_prefix n s : String.prefix (substring 0 n s) s = true.
Proof.
  revert s. induction n as [|n IH]; intros [|c s]; cbn; try done.
  destruct (Ascii.ascii_dec c c); [apply IH|done].
Qed.

Lemma substring_0_all n s : String.length s <= n -> substring 0 n s = s.
Proof.
  revert s. induction n as [|n IH]; intros [|c s]; cbn; try done; [lia|].
  intros H. rewrite IH; [done|lia].
Qed.

(** When a request with string texts is answered 200, the line printed
    shows of each text a prefix of at most 50 characters: the whole text
    when it is that short, its first 50 characters otherwise. *)
Theorem log_interaction_log_truncated fl w req s d x y b :
  body req = Parsed (Py.Dict d) ->
  d !! "userMessage" = Some (Py.Str x) ->
  d !! "gptResponse" = Some (Py.Str y) ->
  fst (log_interaction fl w req s) = Return (b, 200%Z) ->
  ∃ u g,
    stdout (snd (log_interaction fl w req s))
      = stdout s ++ [LoggedOk (Py.Str u) (Py.Str g)]
    ∧ String.length u = Nat.min 50 (String.length x)
    ∧ String.length g = Nat.min 50 (String.length y)
    ∧ String.prefix u x = true ∧ String.prefix g y = true
    ∧ (String.length x <= 50 -> u = x)
    ∧ (String.length y <= 50 -> g = y).
Proof.
  intros Hb Hx Hy Hr.
  destruct (log_interaction_paths fl w req s)
    as [(msg & st' & l & Hst & He) | [(e & _ & He)
        | (k & d' & Ha & Hb' & Hu & Hg)]].
  - rewrite He in Hr. injection Hr as _ Hst'. lia.
  - by rewrite He in Hr.
  - rewrite Hb in Hb'. injection Hb' as <-.
    destruct (log_interaction_step4 fl w req s k d Ha Hb Hu Hg)
      as [(e & _ & He) | (_ & _ & [(u & g & Eu & Eg & He) | (e & _ & He)])];
      rewrite He in Hr |- *; [done| |done].
    rewrite Hx in Eu. rewrite Hy in Eg. cbn in Eu, Eg.
    injection Eu as <-. injection Eg as <-.
    exists (substring 0 50 x), (substring 0 50 y).
    split; [done|].
    split; [apply substring_0_length|]. split; [apply substring_0_length|].
    split; [apply substring_0_prefix|]. split; [apply substring_0_prefix|].
    split; apply substring_0_all.
Qed.

Lemma log_interaction_log_truncated_witness :
  ∃ u g,
    stdout (snd (log_interaction From_2_3 w_ok req_ok s0))
      = stdout s0 ++ [LoggedOk (Py.Str u) (Py.Str g)]
    ∧ String.length u = Nat.min 50 (String.length "hi")
    ∧ String.length g = Nat.min 50 (String.length "hello")
    ∧ String.prefix u "hi" = true ∧ String.prefix g "hello" = true
    ∧ (String.length "hi" <= 50 -> u = "hi")
    ∧ (String.length "hello" <= 50 -> g = "hello").
Proof.
  apply (log_interaction_log_truncated From_2_3 w_ok req_ok s0 hi_hello
           "hi" "hello" ok_body).
  - reflexivity.
  - reflexivity.
  - reflexivity.
  - vm_compute. reflexivity.
Defined.

(** ** Runs of the service *)

Lemma run_cons fl c cs s :
  run fl (c :: cs) s = run fl cs (snd (serve fl c s)).
Proof. reflexivity. Qed.

(** One call adds at most one row, none unless it is a POST, and one
    whenever a POST is answered 200; it opens at most one session, which
    it leaves released. *)
Lemma serve_step fl c s :
  (table (snd (serve fl c s)) = table s
   ∧ (is_post c && is_200 (fst (serve fl c s))) = false
   ∨ is_post c = true ∧ ∃ r, table (snd (serve fl c s)) = table s ++ [r])
  ∧ (sessions (snd (serve fl c s)) = sessions s
     ∨ is_post c = true
       ∧ sessions (snd (serve fl c s)) = sessions s ++ [mkSess [] true]).
Proof.
  destruct c as [w req | w req]; [|split; left; done]. cbn [serve is_post].
  destruct (log_interaction_paths fl w req s)
    as [(msg & st' & l & Hst & He) | [(e & _ & He)
        | (k & d & Ha & Hb & Hu & Hg)]].
  - rewrite He. split; left; [|done]. split; [done|]. cbn.
    apply Z.eqb_neq. lia.
  - rewrite He. split; left; done.
  - destruct (log_interaction_step4 fl w req s k d Ha Hb Hu Hg)
      as [(e & _ & He) | (_ & _ & [(u & g & _ & _ & He) | (e & _ & He)])];
      rewrite He; cbn [fst snd table sessions].
    + split; [left|right]; done.
    + split; right; [|done]. split; [done|]. by eexists.
    + split; right; [|done]. split; [done|]. by eexists.
Qed.

(** Over any sequence of calls, the number of rows added lies between the
    number of POSTs answered 200 and the number of POSTs: [GET /health]
    never adds a row, a POST adds at most one, and every 200 stands for a
    row. *)
Theorem run_rows_bounds fl cs s :
  length (table s) + accepted fl cs s <= length (table (run fl cs s))
  ∧ length (table (run fl cs s))
    <= length (table s) + length (List.filter is_post cs).
Proof.
  revert s. induction cs as [|c cs IH]; intros s.
  - cbn. lia.
  - rewrite run_cons. cbn [accepted List.filter].
    destruct (IH (snd (serve fl c s))) as [IH1 IH2].
    destruct (serve_step fl c s) as [[[Ht Hb] | [Hp [r Ht]]] _].
    + rewrite Ht in IH1, IH2. rewrite Hb.
      destruct (is_post c); cbn [length]; lia.
    + rewrite Ht, length_app in IH1, IH2. cbn [length] in IH1, IH2.
      rewrite Hp. cbn [andb length].
      destruct (is_200 _); lia.
Qed.

(** Sessions do not leak: after any sequence of calls from a state whose
    sessions are all released, every session is closed with nothing
    pending, and at most one session was opened for each POST. *)
Theorem run_sessions_released fl cs s :
  Forall released (sessions s) ->
  Forall released (sessions (run fl cs s))
  ∧ length (sessions (run fl cs s))
    <= length (sessions s) + length (List.filter is_post cs).
Proof.
  revert s. induction cs as [|c cs IH]; intros s Hs.
  - cbn. split; [done|lia].
  - rewrite run_cons. cbn [List.filter].
    destruct (serve_step fl c s) as [_ [Hse | [Hp Hse]]].
    + destruct (IH (snd (serve fl c s))) as [IH1 IH2]; [by rewrite Hse|].
      split; [done|]. rewrite Hse in IH2.
      destruct (is_post c); cbn [length]; lia.
    + destruct (IH (snd (serve fl c s))) as [IH1 IH2].
      { rewrite Hse. apply Forall_app. split; [done|].
        by repeat constructor. }
      split; [done|]. rewrite Hse, length_app in IH2. rewrite Hp.
      cbn [length] in *. lia.
Qed.

Lemma run_sessions_released_witness :
  Forall released
    (sessions (run From_2_3
                 [POST_log_interaction w_down req_ok;
                  POST_log_interaction w_ok req_ok] s0))
  ∧ length (sessions (run From_2_3
                        [POST_log_interaction w_down req_ok;
                         POST_log_interaction w_ok req_ok] s0))
    <= length (sessions s0)
       + length (List.filter is_post
                   [POST_log_interaction w_down req_ok;
                    POST_log_interaction w_ok req_ok]).
Proof.
  apply (run_sessions_released From_2_3
           [POST_log_interaction w_down req_ok;
            POST_log_interaction w_ok req_ok] s0).
  apply Forall_nil_2.
Defined.

(** Calls of [GET /health] can be dropped from any run: the state at the
    end is the same with or without them. *)
Theorem run_health_invisible fl cs s :
  run fl (List.filter is_post cs) s = run fl cs s.
Proof.
  revert s. induction cs as [|[w req | w req] cs IH]; intros s.
  - reflexivity.
  - cbn [List.filter is_post]. by rewrite !run_cons, IH.
  - cbn [List.filter is_post]. by rewrite run_cons, IH.
Qed.

(** ** Start-up with a database URL *)

(** When [create_engine] builds an engine, the import of app.py always
    completes: a failure of [create_all] is caught and printed by lines
    57-58, success prints line 56.  The warning of line 25 comes first,
    and exactly when [DATABASE_URL] is unset or empty.  Nothing else is
    printed and the table is not touched. *)
Theorem startup_with_engine {Engine : Type}
    (create_engine : option string -> result Engine)
    (create_all : Engine -> result unit) url eng s :
  create_engine url = Return eng ->
  startup create_engine create_all url s =
    (Return eng,
     mkState (table s) (sessions s)
       (stdout s
        ++ (if bool_decide (url = None ∨ url = Some "")
            then [WarnDatabaseUrlUnset] else [])
        ++ [match create_all eng with
            | Return _ => TableChecked
            | Raise e => ErrCreateTable e
            end])).
Proof.
  intros He. unfold startup, bind, try_except, of_result, print, ret, raise.
  rewrite He.
  assert (Hw : bool_decide (url = None ∨ url = Some "")
               = negb (Py.truthy (Py.of_option url))).
  { destruct url as [u|]; cbn [Py.of_option Py.truthy].
    - rewrite negb_involutive. destruct (String.eqb_spec u "") as [->|Hu].
      + apply bool_decide_eq_true_2. auto.
      + apply bool_decide_eq_false_2. by intros [|[= ?]].
    - apply bool_decide_eq_true_2. auto. }
  rewrite Hw.
  destruct (negb _); destruct (create_all eng);
    cbn [table sessions stdout]; by rewrite <- ?(assoc_L (++)).
Qed.

Lemma startup_with_engine_witness :
  startup sqlalchemy_create_engine create_all_unreachable
    (Some "postgresql://db/interactions") s0 =
    (Return "postgresql://db/interactions",
     mkState (table s0) (sessions s0)
       (stdout s0
        ++ (if bool_decide (Some "postgresql://db/interactions" = None
                            ∨ Some "postgresql://db/interactions" = Some "")
            then [WarnDatabaseUrlUnset] else [])
        ++ [match create_all_unreachable "postgresql://db/interactions" with
            | Return _ => TableChecked
            | Raise e => ErrCreateTable e
            end])).
Proof.
  apply (startup_with_engine sqlalchemy_create_engine create_all_unreachable
           (Some "postgresql://db/interactions")
           "postgresql://db/interactions" s0).
  reflexivity.
Defined.

(** ** The process from its start *)

(** Once the engine is built, [GET /health] is served whatever
    [create_all] did and whatever the world of the request is: 200 with
    the fixed body, the table and the sessions as before the import. *)
Lemma health_served_after_import {Engine : Type}
    (create_engine : option string -> result Engine)
    (create_all : Engine -> result unit) url eng fl w req s :
  create_engine url = Return eng ->
  ∃ s', import_then_serve create_engine create_all url fl
          (GET_health w req) s =
          (Return (jsonify {[ "status" := Py.Str "healthy";
                              "message" := Py.Str "API is running" ]},
                   200%Z), s')
        ∧ table s' = table s.
Proof.
  intros He.
  destruct (startup_survives_create_all create_engine create_all url eng s He)
    as (s' & Hs & Ht).
  exists s'. unfold import_then_serve, bind. by rewrite Hs.
Qed.

(** C8, where the code departs from it.  With [DATABASE_URL] unset, and a
    [create_engine] that refuses [None], as SQLAlchemy's does, the import
    of app.py stops at line 31, before line 119 registers the route: a
    [GET /health] is then not answered 200, nor answered at all, by the
    application.  This is the defect of C2. *)
Theorem health_unserved_without_database_url {Engine : Type}
    (create_engine : option string -> result Engine)
    (create_all : Engine -> result unit) fl w req e s :
  create_engine None = Raise e ->
  import_then_serve create_engine create_all None fl (GET_health w req) s =
    (Raise e, printed WarnDatabaseUrlUnset s)
  ∧ ¬ returns_json 200
        (import_then_serve create_engine create_all None fl
           (GET_health w req) s).
Proof.
  intros He.
  assert (H : import_then_serve create_engine create_all None fl
                (GET_health w req) s =
              (Raise e, printed WarnDatabaseUrlUnset s)).
  { unfold import_then_serve, startup, bind, of_result. cbn.
    by rewrite He. }
  split; [exact H|]. intros [b Hb]. by rewrite H in Hb.
Qed.

Lemma health_unserved_without_database_url_witness :
  import_then_serve sqlalchemy_create_engine create_all_unreachable None
    From_2_3 (GET_health w_ok req_ok) s0 =
    (Raise (Py.ArgumentError "Expected string or URL object, got None"),
     printed WarnDatabaseUrlUnset s0)
  ∧ ¬ returns_json 200
        (import_then_serve sqlalchemy_create_engine create_all_unreachable
           None From_2_3 (GET_health w_ok req_ok) s0).
Proof.
  apply (health_unserved_without_database_url sqlalchemy_create_engine
           create_all_unreachable From_2_3 w_ok req_ok
           (Py.ArgumentError "Expected string or URL object, got None") s0).
  reflexivity.
Defined.
